(** * backend-hujan: the HTTP front of a weather-observation database

    A shallow embedding of [main.go]: the two route handlers
    ([/stations] and [/input/data]), [Station.MarshalJSON], and the parts of
    the Go standard library they call ([strings.Split], [strings.Join],
    [strconv.Atoi], [time.Parse] and [Time.Format] for the layout
    [2006-01-02], [json.Marshal] on the values the handlers build).

    Go strings are byte sequences; they are modelled by [string], whose
    characters are the 256 [ascii] values.  The storage collaborator
    ([*sql.DB]) is an argument of the handlers: they are functions of the
    answers it gives.  A handler invocation is recorded as the statements
    it sent and the way it ended; the response headers, which no branch
    depends on, are left out.  [int] is taken to be 64 bits wide, and
    [rows.Columns()] not to fail (the source drops its error). *)

From Stdlib Require Import ZArith Ascii String List PrimFloat Lia.
From stdpp Require Import gmap strings list sorting.

Local Open Scope Z_scope.
Set Warnings "-register-all".

(** ** Characters used by the source *)

Definition dquote : ascii := "034"%char.
Definition comma : ascii := ","%char.
Definition hyphen : ascii := "-"%char.
Definition plus_sign : ascii := "+"%char.

Definition isDigit (c : ascii) : bool :=
  (48 <=? nat_of_ascii c)%nat && (nat_of_ascii c <=? 57)%nat.

Definition digitVal (c : ascii) : Z := Z.of_nat (nat_of_ascii c) - 48.

Definition digitChar (d : Z) : ascii := ascii_of_nat (Z.to_nat (d + 48)).

(** ** Package strings *)

Module GoStrings.

(** [strings.Split(s, sep)] for a one-byte separator: the pieces of [s]
    between the occurrences of [sep], in order.  The result always has at
    least one element; splitting the empty string gives one empty piece. *)
Fixpoint Split (s : string) (sep : ascii) : list string :=
  match s with
  | EmptyString => [EmptyString]
  | String c rest =>
      if Ascii.eqb c sep then EmptyString :: Split rest sep
      else match Split rest sep with
           | piece :: pieces => String c piece :: pieces
           | [] => [String c EmptyString]
           end
  end.

(** [strings.Join(elems, sep)]. *)
Fixpoint Join (elems : list string) (sep : string) : string :=
  match elems with
  | [] => EmptyString
  | [e] => e
  | e :: rest => e +:+ sep +:+ Join rest sep
  end.

(** A byte occurs in a string. *)
Fixpoint ContainsByte (s : string) (c : ascii) : bool :=
  match s with
  | EmptyString => false
  | String d rest => Ascii.eqb d c || ContainsByte rest c
  end.

End GoStrings.

(** ** Package strconv *)

Module Strconv.

(** The handler runs on a 64-bit platform: [int] is [int64]. *)
Definition intSize : Z := 64.
Definition maxInt : Z := 2 ^ (intSize - 1) - 1.
Definition minInt : Z := - 2 ^ (intSize - 1).

(** Base-10 digits, most significant first; [None] is [ErrSyntax]. *)
Fixpoint parseDigits (s : string) (acc : Z) : option Z :=
  match s with
  | EmptyString => Some acc
  | String c rest =>
      if isDigit c then parseDigits rest (acc * 10 + digitVal c) else None
  end.

(** [strconv.Atoi]: an optional sign, then one or more decimal digits,
    the value within the range of [int].  [None] stands for a non-nil
    error ([ErrSyntax] or [ErrRange]); the handler only tests
    [err != nil]. *)
Definition Atoi (s : string) : option Z :=
  match s with
  | EmptyString => None
  | String c rest =>
      let neg := Ascii.eqb c hyphen in
      let digits := if neg || Ascii.eqb c plus_sign then rest else s in
      match digits with
      | EmptyString => None
      | _ =>
          match parseDigits digits 0 with
          | None => None
          | Some n =>
              let v := if neg then - n else n in
              if (minInt <=? v) && (v <=? maxInt) then Some v else None
          end
      end
  end.

End Strconv.

(** ** Package time, for the layout [2006-01-02] *)

Module GoTime.

(** The handler only builds midnight-UTC instants from a date and formats
    them back with the same layout, so an instant is its civil date. *)
Record Time := mkTime { Year : Z; Month : Z; Day : Z }.

Definition isLeap (year : Z) : bool :=
  (year mod 4 =? 0) && (negb (year mod 100 =? 0) || (year mod 400 =? 0)).

Definition daysIn (m year : Z) : Z :=
  if (m =? 2) && isLeap year then 29
  else if m =? 2 then 28
  else if (m =? 4) || (m =? 6) || (m =? 9) || (m =? 11) then 30
  else 31.

(** [leadingInt]: the leading decimal digits of [s] and what follows
    them; [None] on overflow of the 64-bit accumulator. *)
Fixpoint leadingInt (s : string) (x : Z) : option (Z * string) :=
  match s with
  | EmptyString => Some (x, EmptyString)
  | String c rest =>
      if isDigit c then
        if (2 ^ 63 - 1) / 10 <? x then None
        else
          let x' := x * 10 + digitVal c in
          if 2 ^ 63 <? x' then None else leadingInt rest x'
      else Some (x, s)
  end.

(** The package's own [atoi]: sign, digits, nothing after them. *)
Definition atoi (s : string) : option Z :=
  let '(neg, s1) :=
    match s with
    | String c rest =>
        if Ascii.eqb c hyphen then (true, rest)
        else if Ascii.eqb c plus_sign then (false, rest)
        else (false, s)
    | EmptyString => (false, s)
    end in
  match leadingInt s1 0 with
  | Some (q, EmptyString) => Some (if neg then - q else q)
  | _ => None
  end.

(** [getnum(s, fixed)]: one or two digits, two when [fixed]. *)
Definition getnum (s : string) (fixed : bool) : option (Z * string) :=
  match s with
  | String a rest =>
      if isDigit a then
        match rest with
        | String b rest' =>
            if isDigit b then Some (digitVal a * 10 + digitVal b, rest')
            else if fixed then None else Some (digitVal a, rest)
        | EmptyString => if fixed then None else Some (digitVal a, rest)
        end
      else None
  | EmptyString => None
  end.

(** [skip(value, prefix)] for the one-byte literal prefix [-]. *)
Definition skip (value : string) (prefix : ascii) : option string :=
  match value with
  | String c rest => if Ascii.eqb c prefix then Some rest else None
  | EmptyString => None
  end.

(** The [stdLongYear] chunk: four bytes, the first a digit, read by
    [atoi]. *)
Definition longYear (value : string) : option (Z * string) :=
  match value with
  | String a (String b (String c (String d rest))) =>
      if isDigit a then
        match atoi (String a (String b (String c (String d EmptyString)))) with
        | Some y => Some (y, rest)
        | None => None
        end
      else None
  | _ => None
  end.

(** [time.Parse("2006-01-02", value)]: the chunks [2006], [-01], [-02]
    in turn, no text after them, then the range checks on month and
    day.  [None] stands for a non-nil [*ParseError]. *)
Definition Parse (value : string) : option Time :=
  match longYear value with
  | None => None
  | Some (year, v1) =>
      match skip v1 hyphen with
      | None => None
      | Some v2 =>
          match getnum v2 true with
          | None => None
          | Some (month, v3) =>
              if (month <=? 0) || (12 <? month) then None
              else
                match skip v3 hyphen with
                | None => None
                | Some v4 =>
                    match getnum v4 true with
                    | None => None
                    | Some (day, v5) =>
                        match v5 with
                        | String _ _ => None
                        | EmptyString =>
                            if (day <? 1) || (daysIn month year <? day) then None
                            else Some (mkTime year month day)
                        end
                    end
                end
          end
      end
  end.

(** [appendInt(b, x, width)] for [0 <= x]: decimal digits, zero-padded
    on the left to [width]. *)
Fixpoint digitsOf (fuel : nat) (x : Z) (acc : string) : string :=
  match fuel with
  | O => acc
  | S fuel' =>
      let acc' := String (digitChar (x mod 10)) acc in
      if x / 10 =? 0 then acc' else digitsOf fuel' (x / 10) acc'
  end.

Fixpoint padZero (n : nat) (s : string) : string :=
  match n with
  | O => s
  | S n' => String "0"%char (padZero n' s)
  end.

Definition appendInt (x : Z) (width : nat) : string :=
  let ds := digitsOf 20 x EmptyString in
  padZero (width - String.length ds) ds.

(** [t.Format("2006-01-02")]. *)
Definition Format (t : Time) : string :=
  appendInt (Year t) 4 +:+ String hyphen (appendInt (Month t) 2)
    +:+ String hyphen (appendInt (Day t) 2).

(** [t.After(u)] on dates. *)
Definition After (t u : Time) : bool :=
  (Year u <? Year t)
  || ((Year u =? Year t)
      && ((Month u <? Month t)
          || ((Month u =? Month t) && (Day u <? Day t)))).

End GoTime.

(** ** Go slices

    A slice is either [nil] or a (possibly empty) sequence: the two are
    different values, and [json.Marshal] tells them apart. *)

Inductive Slice (A : Type) : Type :=
| NilSlice
| MkSlice (elems : list A).
Arguments NilSlice {A}.
Arguments MkSlice {A} elems.

Definition elemsOf {A} (s : Slice A) : list A :=
  match s with
  | NilSlice => []
  | MkSlice elems => elems
  end.

(** [append(s, x)]: never [nil]. *)
Definition append {A} (s : Slice A) (x : A) : Slice A :=
  MkSlice (elemsOf s ++ [x]).

(** ** Package encoding/json: documents and their text *)

Module Json.

Inductive Value : Type :=
| Null
| Bool (b : bool)
| Int (n : Z)
| Float (f : float)
| Str (s : string)
| Array (elems : list Value)
| Object (members : list (string * Value)).

(** A float64 is encoded unless it is NaN or an infinity
    ([UnsupportedValueError]). *)
Definition ofFloat (f : float) : option Value :=
  if PrimFloat.is_nan f || PrimFloat.is_infinity f then None
  else Some (Float f).

(** The members of an object named [key], in order. *)
Definition membersNamed (key : string) (members : list (string * Value))
  : list Value :=
  snd <$> filter (fun kv => fst kv = key) members.

Definition formatInt (n : Z) : string :=
  if n <? 0 then String hyphen (GoTime.digitsOf 80 (- n) EmptyString)
  else GoTime.digitsOf 80 n EmptyString.

Section Text.
(** The text of a number and of a string literal is the encoder's
    business ([strconv.AppendFloat] in its shortest form, the string
    escaping rules); the shape of a document does not depend on it. *)
Variable formatFloat : float -> string.
Variable quoteString : string -> string.

Fixpoint encode (v : Value) : string :=
  match v with
  | Null => "null"
  | Bool true => "true"
  | Bool false => "false"
  | Int n => formatInt n
  | Float f => formatFloat f
  | Str s => quoteString s
  | Array elems =>
      "[" +:+ GoStrings.Join (map encode elems) "," +:+ "]"
  | Object members =>
      "{" +:+ GoStrings.Join
                (map (fun kv => quoteString (fst kv) +:+ ":" +:+ encode (snd kv))
                     members) ","
          +:+ "}"
  end.
End Text.

End Json.

(** ** Package database/sql: what the driver hands back *)

Module Sql.

(** A [driver.Value]: [nil] for SQL NULL, otherwise one of the six
    driver types.  An instant is kept as what its [MarshalJSON] gives:
    the RFC 3339 text, or nothing when its year is outside 0..9999. *)
Inductive Value : Type :=
| Nil
| Int64 (n : Z)
| Float64 (f : float)
| Boolean (b : bool)
| Bytes (b : string)
| Text (s : string)
| Instant (rfc3339 : option string).

(** The result of [db.Query]: the column names, the records [rows.Next]
    steps through, and whether the iteration ended on an error
    ([rows.Err() != nil]). *)
Record Rows := mkRows {
  Columns : list string;
  Records : list (list Value);
  IterErr : bool
}.

Inductive QueryResult : Type :=
| QueryError
| QueryRows (rows : Rows).

(** [db.Query(query, args...)]. *)
Definition DB : Type := string -> list string -> QueryResult.

(** [rows.Scan(pointers...)] into [n] destinations of type
    [*interface{}]: fails when the record does not have [n] columns,
    copies the driver values otherwise. *)
Definition ScanAny (n : nat) (record : list Value) : option (list Value) :=
  if (length record =? n)%nat then Some record else None.

Record NullFloat64 := mkNullFloat64 { Float64Of : float; Valid : bool }.

End Sql.

(** [base64.StdEncoding.EncodeToString], by which a [[]byte] becomes a
    JSON string. *)
Module Base64.

Definition alphabet : string :=
  "ABCDEFGHIJKLMNOPQRSTUVWXYZabcdefghijklmnopqrstuvwxyz0123456789+/".

Definition sextet (n : N) : ascii :=
  match String.get (N.to_nat (N.land n 63)) alphabet with
  | Some c => c
  | None => "="%char
  end.

Fixpoint encodeFuel (fuel : nat) (s : string) : string :=
  match fuel with
  | O => EmptyString
  | S fuel' =>
      match s with
      | EmptyString => EmptyString
      | String a EmptyString =>
          let v := N.shiftl (N_of_ascii a) 16 in
          String (sextet (N.shiftr v 18))
            (String (sextet (N.shiftr v 12)) "==")
      | String a (String b EmptyString) =>
          let v := N.lor (N.shiftl (N_of_ascii a) 16) (N.shiftl (N_of_ascii b) 8) in
          String (sextet (N.shiftr v 18))
            (String (sextet (N.shiftr v 12))
               (String (sextet (N.shiftr v 6)) "="))
      | String a (String b (String c rest)) =>
          let v := N.lor (N.lor (N.shiftl (N_of_ascii a) 16)
                                (N.shiftl (N_of_ascii b) 8))
                         (N_of_ascii c) in
          String (sextet (N.shiftr v 18))
            (String (sextet (N.shiftr v 12))
               (String (sextet (N.shiftr v 6))
                  (String (sextet v) (encodeFuel fuel' rest))))
      end
  end.

Definition EncodeToString (s : string) : string :=
  encodeFuel (S (String.length s)) s.

End Base64.

(** ** [json.Marshal] on the values the handlers build *)

(** A value scanned into an [interface{}]: [nil] is [null], a [[]byte]
    is base64 text, an instant is its RFC 3339 text; [None] is a non-nil
    error. *)
Definition marshalAny (v : Sql.Value) : option Json.Value :=
  match v with
  | Sql.Nil => Some Json.Null
  | Sql.Int64 n => Some (Json.Int n)
  | Sql.Float64 f => Json.ofFloat f
  | Sql.Boolean b => Some (Json.Bool b)
  | Sql.Bytes b => Some (Json.Str (Base64.EncodeToString b))
  | Sql.Text s => Some (Json.Str s)
  | Sql.Instant t => Json.Str <$> t
  end.

(** Map keys are written in increasing byte order. *)
Definition keyLe {V} : relation (string * V) :=
  fun x y => Is_true (String.leb x.1 y.1).

#[local] Instance keyLe_dec {V} (x y : string * V) : Decision (keyLe x y).
Proof. unfold keyLe. apply _. Defined.

Definition sortedEntries {V} (m : gmap string V) : list (string * V) :=
  merge_sort keyLe (map_to_list m).

Definition marshalEntry (kv : string * Sql.Value) : option (string * Json.Value) :=
  v ← marshalAny kv.2; Some (kv.1, v).

(** A [map[string]interface{}]. *)
Definition marshalMap (m : gmap string Sql.Value) : option Json.Value :=
  Json.Object <$> mapM marshalEntry (sortedEntries m).

(** A [[]map[string]interface{}]: [nil] is [null]. *)
Definition marshalResults (results : Slice (gmap string Sql.Value))
  : option Json.Value :=
  match results with
  | NilSlice => Some Json.Null
  | MkSlice maps => Json.Array <$> mapM marshalMap maps
  end.

(** ** The Station record and its encoder *)

Record Station := mkStation {
  StationNumber : Z;
  StationName : string;
  Latitude : float;
  Longitude : float;
  Elevation : Sql.NullFloat64
}.

(** The fields the embedded [Alias] contributes.  Its own [elevation]
    field sits one level deeper than the [Elevation] field of the
    enclosing struct, which has the same JSON name and therefore hides
    it. *)
Definition aliasMembers (s : Station) : option (list (string * Json.Value)) :=
  lat ← Json.ofFloat (Latitude s);
  lon ← Json.ofFloat (Longitude s);
  Some [("station_number"%string, Json.Int (StationNumber s));
        ("station_name"%string, Json.Str (StationName s));
        ("latitude"%string, lat);
        ("longitude"%string, lon)].

(** [func (s Station) MarshalJSON() ([]byte, error)]. *)
Definition MarshalJSON (s : Station) : option Json.Value :=
  if Sql.Valid (Elevation s) then
    members ← aliasMembers s;
    elevation ← Json.ofFloat (Sql.Float64Of (Elevation s));
    Some (Json.Object (members ++ [("elevation"%string, elevation)]))
  else
    members ← aliasMembers s;
    Some (Json.Object (members ++ [("elevation"%string, Json.Null)])).

(** A [[]Station]: each element through its [MarshalJSON]. *)
Definition marshalStations (stations : Slice Station) : option Json.Value :=
  match stations with
  | NilSlice => Some Json.Null
  | MkSlice sts => Json.Array <$> mapM MarshalJSON sts
  end.

(** ** Requests and what a handler run leaves behind

    A request is taken as the mux dispatches it: [Path] is the URL path
    in its clean form.  For a path that is not clean the mux itself
    answers with a redirect to the clean one and runs no handler; such
    requests are outside this model. *)

Record Request := mkRequest {
  Method : string;
  Path : string;
  URLQuery : gmap string (list string)
}.

(** [url.Values.Get]: the first value of the key, or the empty string. *)
Definition Get (values : gmap string (list string)) (key : string) : string :=
  match values !! key with
  | Some (v :: _) => v
  | _ => EmptyString
  end.

(** How a handler invocation ends. *)
Inductive Exit : Type :=
| Preflight                              (* bare return: 200, empty body *)
| HttpError (code : Z) (msg : string)    (* http.Error, then return *)
| Written (body : Json.Value)            (* w.Write(jsonData): 200 *)
| LogFatal                               (* log.Fatal: the process exits *)
| RuntimePanic.                          (* index out of range *)

(** One invocation: the statements sent to the store, in order, and the
    way it ended. *)
Record Run := mkRun {
  Queries : list (string * list string);
  Result : Exit
}.

Definition StatusBadRequest : Z := 400.
Definition StatusNotFound : Z := 404.
Definition MethodOptions : string := "OPTIONS".

Definition missingDataTypes : Exit :=
  HttpError StatusBadRequest "Invalid request. Missing data types.".

(** A name between two double quotes, as the source writes it. *)
Definition wrapQuotes (s : string) : string :=
  String dquote (s +:+ String dquote EmptyString).

Definition stationsQuery : string :=
  "SELECT * FROM " +:+ wrapQuotes "Station".

(** The literal that follows the select list in the statement of the
    [/input/data] handler. *)
Definition selectTail : string :=
  "," +:+ wrapQuotes "Tanggal"
    +:+ " FROM " +:+ wrapQuotes "Weather"
    +:+ " WHERE station_number = $1 AND TO_DATE(" +:+ wrapQuotes "Tanggal"
    +:+ ", 'YYYY-MM-DD') BETWEEN $2 AND $3".

(** The statement: [SELECT], the joined names, the literal above. *)
Definition inputDataQuery (dataType : string) : string :=
  "SELECT " +:+ dataType +:+ selectTail.

(** [for i, val := range values { resultMap[columns[i]] = val }]:
    [None] is the run-time panic of an index out of range. *)
Fixpoint fillMap (columns : list string) (i : nat) (values : list Sql.Value)
    (resultMap : gmap string Sql.Value) : option (gmap string Sql.Value) :=
  match values with
  | [] => Some resultMap
  | val :: rest =>
      match columns !! i with
      | None => None
      | Some c => fillMap columns (S i) rest (<[c := val]> resultMap)
      end
  end.

(** The [rows.Next()] loop of [/input/data].  [inl] is the way the
    handler is cut short. *)
Fixpoint collectRows (columns : list string) (records : list (list Sql.Value))
    (results : Slice (gmap string Sql.Value))
  : Exit + Slice (gmap string Sql.Value) :=
  match records with
  | [] => inr results
  | record :: rest =>
      match Sql.ScanAny (length columns) record with
      | None => inl LogFatal
      | Some values =>
          match fillMap columns 0 values ∅ with
          | None => inl RuntimePanic
          | Some resultMap => collectRows columns rest (append results resultMap)
          end
      end
  end.

(** The handler from the answer of [db.Query] on: the [log.Fatal] on
    its error, the loop over the rows, [json.Marshal] and the write. *)
Definition writeResults (answer : Sql.QueryResult) : Exit :=
  match answer with
  | Sql.QueryError => LogFatal
  | Sql.QueryRows rows =>
      match collectRows (Sql.Columns rows) (Sql.Records rows) NilSlice with
      | inl stop => stop
      | inr results =>
          match marshalResults results with
          | None => LogFatal
          | Some jsonData => Written jsonData
          end
      end
  end.

(** The body of the [/input/data] handler after the preflight guard. *)
Definition fetchObservations (db : Sql.DB)
    (stationNumber dateRange fieldList : string) : Run :=
  let dataTypes := wrapQuotes <$> GoStrings.Split fieldList comma in
  let dataType := GoStrings.Join dataTypes "," in
  if String.eqb dataType (wrapQuotes EmptyString) then mkRun [] missingDataTypes
  else
    match Strconv.Atoi stationNumber with
    | None => mkRun [] missingDataTypes
    | Some _ =>
        let dateRangeParts := GoStrings.Split dateRange comma in
        match dateRangeParts !! 0%nat with
        | None => mkRun [] RuntimePanic
        | Some part0 =>
            match GoTime.Parse part0 with
            | None => mkRun [] LogFatal
            | Some startDate =>
                match dateRangeParts !! 1%nat with
                | None => mkRun [] RuntimePanic
                | Some part1 =>
                    match GoTime.Parse part1 with
                    | None => mkRun [] LogFatal
                    | Some endDate =>
                        let query := inputDataQuery dataType in
                        let args := [stationNumber; GoTime.Format startDate;
                                     GoTime.Format endDate] in
                        mkRun [(query, args)] (writeResults (db query args))
                    end
                end
            end
        end
    end.

(** The [/input/data] handler. *)
Definition inputDataHandler (db : Sql.DB) (r : Request) : Run :=
  if String.eqb (Method r) MethodOptions then mkRun [] Preflight
  else
    fetchObservations db (Get (URLQuery r) "stationNumber")
      (Get (URLQuery r) "dateRange") (Get (URLQuery r) "type").

Section Server.

(** [rows.Scan] into the five fields of a [Station], with the
    conversions of [database/sql]; [None] is a non-nil error. *)
Variable scanStation : list Sql.Value -> option Station.

(** The [rows.Next()] loop of [/stations]; [None] is [log.Fatal]. *)
Fixpoint collectStations (records : list (list Sql.Value))
    (stations : Slice Station) : option (Slice Station) :=
  match records with
  | [] => Some stations
  | record :: rest =>
      match scanStation record with
      | None => None
      | Some station => collectStations rest (append stations station)
      end
  end.

(** The [/stations] handler. *)
Definition stationsHandler (db : Sql.DB) : Run :=
  mkRun [(stationsQuery, [])]
    match db stationsQuery [] with
    | Sql.QueryError => LogFatal
    | Sql.QueryRows rows =>
        match collectStations (Sql.Records rows) (MkSlice []) with
        | None => LogFatal
        | Some stations =>
            if Sql.IterErr rows then LogFatal
            else
              match marshalStations stations with
              | None => LogFatal
              | Some jsonData => Written jsonData
              end
        end
    end.

(** The two registered routes; any other clean path is the mux's 404. *)
Definition route (db : Sql.DB) (r : Request) : Run :=
  if String.eqb (Path r) "/stations" then stationsHandler db
  else if String.eqb (Path r) "/input/data" then inputDataHandler db r
  else mkRun [] (HttpError StatusNotFound "404 page not found").

(** The serving process: [log.Fatal] ends it; a panic in a handler is
    recovered by the HTTP server and ends only that connection. *)
Inductive Process : Type := Running | Exited.

(** One request against the store as it answers at that moment:
    the next state of the process and, when the process was there to
    take the request, the run of its handler. *)
Definition serve (p : Process) (db : Sql.DB) (r : Request)
  : Process * option Run :=
  match p with
  | Exited => (Exited, None)
  | Running =>
      let run := route db r in
      (match Result run with LogFatal => Exited | _ => Running end, Some run)
  end.

Fixpoint serveAll (p : Process) (reqs : list (Sql.DB * Request))
  : list (option Run) :=
  match reqs with
  | [] => []
  | (db, r) :: rest =>
      let '(p', run) := serve p db r in
      run :: serveAll p' rest
  end.

End Server.

(** ** SQL quoted identifiers

    What the statement text means to the store: a quoted identifier
    starts at a double quote and runs to the next double quote that is not
    doubled; a doubled one stands for one quote character of the name. *)

Module Ident.

(** The escaping of a name: each double quote in it is doubled. *)
Fixpoint escape (s : string) : string :=
  match s with
  | EmptyString => EmptyString
  | String c rest =>
      if Ascii.eqb c dquote then String dquote (String dquote (escape rest))
      else String c (escape rest)
  end.

(** A correctly escaped quoted identifier for the name [s]. *)
Definition quote (s : string) : string :=
  String dquote (escape s +:+ String dquote EmptyString).

Definition consName (c : ascii) (r : string * string) : string * string :=
  (String c r.1, r.2).

(** The name of the identifier whose opening quote has just been read,
    and the text after its closing quote; [None] when it never closes. *)
Fixpoint scanBody (text : string) : option (string * string) :=
  match text with
  | EmptyString => None
  | String c rest =>
      if Ascii.eqb c dquote then
        match rest with
        | String d rest' =>
            if Ascii.eqb d dquote then consName dquote <$> scanBody rest'
            else Some (EmptyString, rest)
        | EmptyString => Some (EmptyString, rest)
        end
      else consName c <$> scanBody rest
  end.

(** A quoted identifier at the head of [text]. *)
Definition scan (text : string) : option (string * string) :=
  match text with
  | String c rest => if Ascii.eqb c dquote then scanBody rest else None
  | EmptyString => None
  end.

End Ident.

(** The value of the four digits of a year. *)
Definition fourDigits (a b c e : ascii) : Z :=
  ((digitVal a * 10 + digitVal b) * 10 + digitVal c) * 10 + digitVal e.

(** The select list as the handler joins it. *)
Definition dataTypeOf (fieldList : string) : string :=
  GoStrings.Join (wrapQuotes <$> GoStrings.Split fieldList comma) ",".

(** A run whose request passed the three checks: its statement was sent
    to the store. *)
Definition accepted (run : Run) : Prop := Queries run ≠ [].

(** Every byte of the string is a comma. *)
Fixpoint onlyCommas (s : string) : bool :=
  match s with
  | EmptyString => true
  | String c rest => Ascii.eqb c comma && onlyCommas rest
  end.


(** The document of a Result Row, when there is one: each key is
    written exactly once with the document of its value, [null] for SQL
    NULL, and nothing is written under a name that is not a key. *)
Definition keysWritten (resultMap : gmap string Sql.Value) : Prop :=
  ∀ members, marshalMap resultMap = Some (Json.Object members) →
    ∀ c, match resultMap !! c with
         | Some v => ∃ jv, marshalAny v = Some jv
                           ∧ Json.membersNamed c members = [jv]
                           ∧ (v = Sql.Nil → jv = Json.Null)
         | None => Json.membersNamed c members = []
         end.

(** The date condition of the statement,
    [TO_DATE(Tanggal, 'YYYY-MM-DD') BETWEEN $2 AND $3], on the date of an
    observation; the two parameters are texts read as ISO dates. *)
Definition betweenDates (lo hi : string) (tanggal : GoTime.Time) : bool :=
  match GoTime.Parse lo, GoTime.Parse hi with
  | Some l, Some h =>
      negb (GoTime.After l tanggal) && negb (GoTime.After tanggal h)
  | _, _ => false
  end.

(** An answer of the store that honours that condition: each record
    comes from an observation whose date satisfies it. *)
Definition honoursBetween (args : list string) (rows : Sql.Rows) : Prop :=
  match args with
  | [_; lo; hi] =>
      ∃ dates : list GoTime.Time,
        length dates = length (Sql.Records rows)
        ∧ Forall (λ d, betweenDates lo hi d = true) dates
  | _ => False
  end.

(** A [type] parameter of one token with a double quote in it:
    [tn], a double quote, then a FROM clause and a comment marker. *)
Definition injectedType : string :=
  "tn" +:+ String dquote (" FROM " +:+ wrapQuotes "Weather" +:+ " --").

(** A store over a table of observations, each a date and the record it
    yields, that answers every three-parameter statement with the records
    whose date satisfies the BETWEEN condition. *)
Definition tableStore (columns : list string)
    (table : list (GoTime.Time * list Sql.Value)) : Sql.DB :=
  fun _ args =>
    match args with
    | [_; lo; hi] =>
        Sql.QueryRows
          (Sql.mkRows columns
             (snd <$> filter (λ o, betweenDates lo hi o.1 = true) table) false)
    | _ => Sql.QueryError
    end.

(** The floats of a station that [encoding/json] can write. *)
Definition finite (f : float) : bool :=
  negb (PrimFloat.is_nan f || PrimFloat.is_infinity f).

Definition encodable (s : Station) : bool :=
  finite (Latitude s) && finite (Longitude s)
  && (negb (Sql.Valid (Elevation s)) || finite (Sql.Float64Of (Elevation s))).

(** A store whose every statement fails. *)
Definition brokenStore : Sql.DB := fun _ _ => Sql.QueryError.

(** A store that answers every statement with the given rows. *)
Definition fixedStore (rows : Sql.Rows) : Sql.DB := fun _ _ => Sql.QueryRows rows.

(** ** Further notions used in the statements below *)

(** The civil dates [time.Parse] can return for this layout. *)
Definition validDate (t : GoTime.Time) : bool :=
  (0 <=? GoTime.Year t) && (GoTime.Year t <=? 9999)
  && (1 <=? GoTime.Month t) && (GoTime.Month t <=? 12)
  && (1 <=? GoTime.Day t)
  && (GoTime.Day t <=? GoTime.daysIn (GoTime.Month t) (GoTime.Year t)).

Fixpoint allDigits (s : string) : bool :=
  match s with
  | EmptyString => true
  | String c rest => isDigit c && allDigits rest
  end.

(** An optional sign followed by at least one decimal digit. *)
Definition signedDigits (s : string) : bool :=
  match s with
  | EmptyString => false
  | String c rest =>
      if Ascii.eqb c hyphen || Ascii.eqb c plus_sign
      then negb (String.eqb rest EmptyString) && allDigits rest
      else allDigits s
  end.

(** What follows the date column in the statement. *)
Definition fromClause : string :=
  " FROM " +:+ wrapQuotes "Weather"
    +:+ " WHERE station_number = $1 AND TO_DATE(" +:+ wrapQuotes "Tanggal"
    +:+ ", 'YYYY-MM-DD') BETWEEN $2 AND $3".

Definition consItem (name : string) (r : list string * string)
  : list string * string := (name :: r.1, r.2).

(** A select list of quoted identifiers separated by commas, read as
    SQL: the names in order and the text after the last of them. *)
Fixpoint scanListFuel (fuel : nat) (text : string)
  : option (list string * string) :=
  match fuel with
  | O => None
  | S fuel' =>
      match Ident.scan text with
      | None => None
      | Some (name, rest) =>
          match rest with
          | String c rest' =>
              if Ascii.eqb c comma
              then consItem name <$> scanListFuel fuel' rest'
              else Some ([name], rest)
          | EmptyString => Some ([name], rest)
          end
      end
  end.

Definition scanList (text : string) : option (list string * string) :=
  scanListFuel (S (String.length text)) text.




(** ** Process start

    [main] before [ListenAndServe]: open the handle, list the tables of
    the public schema, scan each name into a [string], check the
    iteration error; every failure is [log.Fatal]. *)

Definition tablesQuery : string :=
  "SELECT table_name FROM information_schema.tables WHERE table_schema = 'public'".

(** [rows.Scan(&tableName)] into a [*string]: one column, which may be
    of any driver type but not NULL. *)
Definition scanTableName (record : list Sql.Value) : bool :=
  match record with
  | [Sql.Nil] => false
  | [_] => true
  | _ => false
  end.

(** The loop over the table names; [false] is [log.Fatal]. *)
Fixpoint scanTableNames (records : list (list Sql.Value)) : bool :=
  match records with
  | [] => true
  | record :: rest => scanTableName record && scanTableNames rest
  end.

(** The state in which [main] reaches [ListenAndServe], if it does. *)
Definition startup (openFails : bool) (db : Sql.DB) : Process :=
  if openFails then Exited
  else
    match db tablesQuery [] with
    | Sql.QueryError => Exited
    | Sql.QueryRows rows =>
        if scanTableNames (Sql.Records rows) then
          if Sql.IterErr rows then Exited else Running
        else Exited
    end.

(** [main]: the start, then the requests in turn. *)
Definition main (scanStation : list Sql.Value → option Station)
    (openFails : bool) (db0 : Sql.DB) (reqs : list (Sql.DB * Request))
  : list (option Run) :=
  serveAll scanStation (startup openFails db0) reqs.

Example split_two : GoStrings.Split "tn,tx" comma = ["tn"; "tx"]%string.
Proof. reflexivity. Qed.

Example split_empty : GoStrings.Split EmptyString comma = [EmptyString].
Proof. reflexivity. Qed.

Example split_only_comma : GoStrings.Split "," comma = [EmptyString; EmptyString].
Proof. reflexivity. Qed.

Example atoi_abc : Strconv.Atoi "abc" = None.
Proof. reflexivity. Qed.

Example atoi_neg : Strconv.Atoi "-5" = Some (-5).
Proof. reflexivity. Qed.

Example atoi_range : Strconv.Atoi "9223372036854775808" = None.
Proof. reflexivity. Qed.

Example parse_ok :
  GoTime.Parse "2023-01-15" = Some (GoTime.mkTime 2023 1 15).
Proof. reflexivity. Qed.

Example parse_feb30 : GoTime.Parse "2023-02-30" = None.
Proof. reflexivity. Qed.

Example format_ok : GoTime.Format (GoTime.mkTime 987 1 5) = "0987-01-05"%string.
Proof. reflexivity. Qed.

Example base64_man : Base64.EncodeToString "Ma" = "TWE="%string.
Proof. reflexivity. Qed.

Example format_int_neg : Json.formatInt (-97230) = "-97230"%string.
Proof. reflexivity. Qed.

(** * Properties *)

(** ** [strings.Split] and the select list *)

Lemma Split_nonempty s sep : ∃ piece pieces, GoStrings.Split s sep = piece :: pieces.
Proof.
  destruct s as [|c rest]; simpl; [by eauto|].
  destruct (Ascii.eqb c sep); [by eauto|].
  destruct (GoStrings.Split rest sep); by eauto.
Qed.

Lemma Split_single_empty s sep :
  GoStrings.Split s sep = [EmptyString] → s = EmptyString.
Proof.
  destruct s as [|c rest]; simpl; [done|].
  destruct (Ascii.eqb c sep).
  - destruct (Split_nonempty rest sep) as (p & ps & ->). done.
  - destruct (GoStrings.Split rest sep); done.
Qed.

Lemma append_eq_empty (s t : string) :
  s +:+ t = EmptyString → s = EmptyString ∧ t = EmptyString.
Proof. destruct s; done. Qed.

Lemma append_quote_not_empty (s t : string) :
  s +:+ String dquote t ≠ EmptyString.
Proof. intros H. by apply append_eq_empty in H as [_ ?]. Qed.

(** The first check of the handler fires exactly on the empty parameter. *)
Lemma dataTypeOf_empty_iff fieldList :
  String.eqb (dataTypeOf fieldList) (wrapQuotes EmptyString) = true
  ↔ fieldList = EmptyString.
Proof.
  split; [|by intros ->].
  rewrite String.eqb_eq. unfold dataTypeOf.
  destruct (Split_nonempty fieldList comma) as (p & ps & Hs).
  rewrite Hs. intros H. apply (Split_single_empty _ comma). rewrite Hs.
  destruct ps as [|p' ps]; simpl in H.
  - unfold wrapQuotes in H. simpl in H.
    destruct p as [|c p]; [done|]. simpl in H.
    injection H as _ H. by apply append_quote_not_empty in H.
  - unfold wrapQuotes in H. simpl in H.
    destruct p as [|c p]; simpl in H.
    + done.
    + injection H as _ H. apply append_eq_empty in H as [H _].
      by apply append_quote_not_empty in H.
Qed.

Lemma dataTypeOf_eqb_false fieldList :
  fieldList ≠ EmptyString →
  String.eqb (dataTypeOf fieldList) (wrapQuotes EmptyString) = false.
Proof.
  intros Hne. destruct (String.eqb _ _) eqn:E; [|done].
  by apply dataTypeOf_empty_iff in E.
Qed.

(** ** Validation of [type] and [stationNumber] *)

Lemma Atoi_range s n :
  Strconv.Atoi s = Some n → Strconv.minInt ≤ n ≤ Strconv.maxInt.
Proof.
  unfold Strconv.Atoi. destruct s as [|c rest]; [done|].
  destruct (if _ : bool then rest else String c rest); [done|].
  destruct (Strconv.parseDigits _ _); [|done].
  destruct (_ && _) eqn:E; [|done].
  intros [= <-]. apply andb_true_iff in E as [? ?]. lia.
Qed.

(** C4, as stated, fails: a [type] of one comma passes the first check,
    and with the other parameters in order the statement goes to the
    store. *)
Lemma only_commas_reach_the_store :
  ¬ (∀ (db : Sql.DB) (stationNumber dateRange fieldList : string),
       onlyCommas fieldList = true →
       fetchObservations db stationNumber dateRange fieldList
       = mkRun [] missingDataTypes).
Proof.
  intros H.
  specialize (H brokenStore "97230" "2023-01-01,2023-01-31" "," eq_refl).
  vm_compute in H. discriminate H.
Qed.

Example comma_type_is_sent (db : Sql.DB) :
  Queries (fetchObservations db "97230" "2023-01-01,2023-01-31" ",")
  = [(inputDataQuery
        (wrapQuotes EmptyString +:+ "," +:+ wrapQuotes EmptyString),
      ["97230"; "2023-01-01"; "2023-01-31"]%string)].
Proof. reflexivity. Qed.

(** C4, amended: when the [type] parameter is empty (its split list is
    the one empty string), [fetchObservations] answers 400 with the
    missing-data-types message whatever the other two parameters are, and
    sends nothing to the store. *)
Theorem empty_type_rejected_first (db : Sql.DB)
    (stationNumber dateRange fieldList : string) :
  GoStrings.Split fieldList comma = [EmptyString] →
  Result (fetchObservations db stationNumber dateRange fieldList)
  = HttpError StatusBadRequest "Invalid request. Missing data types."
  ∧ Queries (fetchObservations db stationNumber dateRange fieldList) = [].
Proof.
  intros Hs. apply Split_single_empty in Hs as ->.
  unfold fetchObservations. fold (dataTypeOf EmptyString).
  destruct (String.eqb _ _) eqn:E; [done|].
  rewrite (proj2 (dataTypeOf_empty_iff EmptyString)) in E; done.
Qed.

Lemma empty_type_rejected_first_witness :
  GoStrings.Split EmptyString comma = [EmptyString]
  ∧ Result (fetchObservations brokenStore "abc" "yesterday" EmptyString)
    = HttpError StatusBadRequest "Invalid request. Missing data types."
  ∧ Queries (fetchObservations brokenStore "abc" "yesterday" EmptyString) = [].
Proof.
  split; [reflexivity|].
  apply (empty_type_rejected_first brokenStore "abc" "yesterday" EmptyString).
  reflexivity.
Defined.

Lemma collectRows_stop columns records results stop :
  collectRows columns records results = inl stop →
  stop = LogFatal ∨ stop = RuntimePanic.
Proof.
  revert results. induction records as [|record rest IH]; intros results; simpl.
  - done.
  - destruct (Sql.ScanAny _ _) as [values|]; [|intros [= <-]; by left].
    destruct (fillMap _ _ _ _) as [resultMap|]; [|intros [= <-]; by right].
    apply IH.
Qed.

Lemma writeResults_not_400 answer : writeResults answer ≠ missingDataTypes.
Proof.
  destruct answer as [|rows]; simpl; [done|].
  destruct (collectRows _ _ _) as [stop|results] eqn:E.
  - by apply collectRows_stop in E as [-> | ->].
  - by destruct (marshalResults results).
Qed.

(** No other [type] is stopped by that check: whether such a request is
    turned away depends on [stationNumber] alone. *)
Lemma nonempty_type_passes_first_check (db : Sql.DB)
    (stationNumber dateRange fieldList : string) (n : Z) :
  fieldList ≠ EmptyString →
  Strconv.Atoi stationNumber = Some n →
  Result (fetchObservations db stationNumber dateRange fieldList)
  ≠ missingDataTypes.
Proof.
  intros Hne Hn. unfold fetchObservations.
  fold (dataTypeOf fieldList). rewrite dataTypeOf_eqb_false by done.
  rewrite Hn.
  destruct (_ !! 0%nat); [|done].
  destruct (GoTime.Parse _); [|done].
  destruct (_ !! 1%nat); [|done].
  destruct (GoTime.Parse _); [|done]. simpl.
  apply writeResults_not_400.
Qed.

(** C7: a [stationNumber] that [strconv.Atoi] does not parse is answered
    with the 400 response, and no statement is sent to the store. *)
Theorem non_integer_station_rejected (db : Sql.DB)
    (stationNumber dateRange fieldList : string) :
  Strconv.Atoi stationNumber = None →
  Result (fetchObservations db stationNumber dateRange fieldList)
  = HttpError StatusBadRequest "Invalid request. Missing data types."
  ∧ Queries (fetchObservations db stationNumber dateRange fieldList) = [].
Proof.
  intros Hn. unfold fetchObservations.
  destruct (String.eqb _ _); [done|]. by rewrite Hn.
Qed.

Lemma non_integer_station_rejected_witness :
  Strconv.Atoi "abc" = None
  ∧ Result (fetchObservations brokenStore "abc" "2023-01-01,2023-01-31" "tn")
    = HttpError StatusBadRequest "Invalid request. Missing data types."
  ∧ Queries (fetchObservations brokenStore "abc" "2023-01-01,2023-01-31" "tn") = [].
Proof.
  split; [reflexivity|].
  apply (non_integer_station_rejected brokenStore "abc"
           "2023-01-01,2023-01-31" "tn").
  reflexivity.
Defined.

(** The same on the whole handler, for any request that is not a
    preflight. *)
Lemma handler_rejects_non_integer_station (db : Sql.DB) (r : Request) :
  Method r ≠ MethodOptions →
  Strconv.Atoi (Get (URLQuery r) "stationNumber") = None →
  inputDataHandler db r = mkRun [] missingDataTypes.
Proof.
  intros Hm Hn. unfold inputDataHandler.
  destruct (String.eqb_spec (Method r) MethodOptions) as [|_]; [done|].
  unfold fetchObservations.
  destruct (String.eqb _ _); [done|]. by rewrite Hn.
Qed.

(** C9, as stated, fails: zero and negative station numbers are accepted
    and reach the store. *)
Lemma nonpositive_station_accepted :
  ¬ (∀ (db : Sql.DB) (stationNumber dateRange fieldList : string),
       accepted (fetchObservations db stationNumber dateRange fieldList) →
       ∃ n, Strconv.Atoi stationNumber = Some n ∧ 0 < n).
Proof.
  intros H.
  destruct (H (fixedStore (Sql.mkRows ["tn"; "Tanggal"]%string [] false))
              "-5" "2023-01-01,2023-01-31" "tn") as (n & Hn & Hpos).
  - unfold accepted. simpl. discriminate.
  - vm_compute in Hn. injection Hn as <-. lia.
Qed.

Example negative_station_is_served :
  fetchObservations (fixedStore (Sql.mkRows ["tn"; "Tanggal"]%string [] false))
    "-5" "2023-01-01,2023-01-31" "tn"
  = mkRun [(inputDataQuery (wrapQuotes "tn"),
            ["-5"; "2023-01-01"; "2023-01-31"]%string)]
      (Written Json.Null).
Proof. reflexivity. Qed.

(** C9, amended: a request is accepted only when [strconv.Atoi] parses
    its [stationNumber] as an integer of the [int] range; the sign is not
    looked at. *)
Theorem accepted_station_is_integer (db : Sql.DB)
    (stationNumber dateRange fieldList : string) :
  accepted (fetchObservations db stationNumber dateRange fieldList) →
  ∃ n, Strconv.Atoi stationNumber = Some n
       ∧ Strconv.minInt ≤ n ≤ Strconv.maxInt.
Proof.
  unfold accepted, fetchObservations.
  destruct (String.eqb _ _); [done|].
  destruct (Strconv.Atoi stationNumber) as [n|] eqn:Hn; [|done].
  intros _. exists n. split; [done|]. by apply (Atoi_range stationNumber).
Qed.

Lemma accepted_station_is_integer_witness :
  accepted (fetchObservations brokenStore "0" "2023-01-01,2023-01-31" "tn")
  ∧ ∃ n, Strconv.Atoi "0" = Some n ∧ Strconv.minInt ≤ n ≤ Strconv.maxInt.
Proof.
  assert (Hacc : accepted
            (fetchObservations brokenStore "0" "2023-01-01,2023-01-31" "tn")).
  { unfold accepted. simpl. discriminate. }
  split; [exact Hacc|].
  exact (accepted_station_is_integer brokenStore "0"
           "2023-01-01,2023-01-31" "tn" Hacc).
Defined.

(** ** The shape of a run that reached the store *)

(** A run sends a statement only after the three checks, and then it
    sends this one, with the station text as given and the two dates
    formatted back, and ends as [writeResults] says. *)
Lemma fetchObservations_queried (db : Sql.DB)
    (stationNumber dateRange fieldList q : string) (args : list string) :
  Queries (fetchObservations db stationNumber dateRange fieldList) = [(q, args)] →
  ∃ part0 part1 startDate endDate,
    GoStrings.Split dateRange comma !! 0%nat = Some part0
    ∧ GoStrings.Split dateRange comma !! 1%nat = Some part1
    ∧ GoTime.Parse part0 = Some startDate
    ∧ GoTime.Parse part1 = Some endDate
    ∧ q = inputDataQuery (dataTypeOf fieldList)
    ∧ args = [stationNumber; GoTime.Format startDate; GoTime.Format endDate]
    ∧ Result (fetchObservations db stationNumber dateRange fieldList)
      = writeResults (db q args).
Proof.
  unfold fetchObservations. fold (dataTypeOf fieldList).
  destruct (String.eqb _ _); [done|].
  destruct (Strconv.Atoi _); [|done].
  destruct (_ !! 0%nat) as [part0|]; [|done].
  destruct (GoTime.Parse part0) as [startDate|] eqn:H0; [|done].
  destruct (_ !! 1%nat) as [part1|]; [|done].
  destruct (GoTime.Parse part1) as [endDate|] eqn:H1; [|done].
  simpl. intros [= <- <-]. by exists part0, part1, startDate, endDate.
Qed.

(** The other way round: three parameters in order send it. *)
Lemma fetchObservations_valid (db : Sql.DB)
    (stationNumber dateRange fieldList part0 part1 : string) (n : Z)
    (startDate endDate : GoTime.Time) :
  fieldList ≠ EmptyString →
  Strconv.Atoi stationNumber = Some n →
  GoStrings.Split dateRange comma !! 0%nat = Some part0 →
  GoStrings.Split dateRange comma !! 1%nat = Some part1 →
  GoTime.Parse part0 = Some startDate →
  GoTime.Parse part1 = Some endDate →
  fetchObservations db stationNumber dateRange fieldList
  = let q := inputDataQuery (dataTypeOf fieldList) in
    let args := [stationNumber; GoTime.Format startDate; GoTime.Format endDate] in
    mkRun [(q, args)] (writeResults (db q args)).
Proof.
  intros Hne Hn Hp0 Hp1 Hs He. unfold fetchObservations.
  fold (dataTypeOf fieldList). rewrite dataTypeOf_eqb_false by done.
  by rewrite Hn, Hp0, Hs, Hp1, He.
Qed.

(** ** Nil and empty slices in the response body *)

(** C10: when the statement of [/input/data] matches no row, the body is
    the document [null], written [null]; when [/stations] finds no
    station, the body is the empty array, written [[]]. *)
Theorem no_rows_null_no_stations_empty_array
    (scanStation : list Sql.Value → option Station) (db : Sql.DB)
    (stationNumber dateRange fieldList q : string) (args : list string)
    (formatFloat : float → string) (quoteString : string → string) :
  (∀ rows,
     Queries (fetchObservations db stationNumber dateRange fieldList) = [(q, args)] →
     db q args = Sql.QueryRows rows →
     Sql.Records rows = [] →
     Result (fetchObservations db stationNumber dateRange fieldList)
     = Written Json.Null
     ∧ Json.encode formatFloat quoteString Json.Null = "null"%string)
  ∧ (∀ rows,
       db stationsQuery [] = Sql.QueryRows rows →
       Sql.Records rows = [] →
       Sql.IterErr rows = false →
       Result (stationsHandler scanStation db) = Written (Json.Array [])
       ∧ Json.encode formatFloat quoteString (Json.Array []) = "[]"%string).
Proof.
  split.
  - intros rows Hq Hdb Hrec.
    apply fetchObservations_queried in Hq
      as (p0 & p1 & sd & ed & _ & _ & _ & _ & _ & _ & ->).
    rewrite Hdb. unfold writeResults. by rewrite Hrec.
  - intros rows Hdb Hrec Herr. unfold stationsHandler. simpl.
    by rewrite Hdb, Hrec, Herr.
Qed.

Lemma no_rows_null_no_stations_empty_array_witness :
  let db := fixedStore (Sql.mkRows ["tn"; "Tanggal"]%string [] false) in
  let q := inputDataQuery (wrapQuotes "tn") in
  let args := ["97230"; "2023-01-01"; "2023-01-31"]%string in
  Queries (fetchObservations db "97230" "2023-01-01,2023-01-31" "tn") = [(q, args)]
  ∧ Result (fetchObservations db "97230" "2023-01-01,2023-01-31" "tn")
    = Written Json.Null
  ∧ Result (stationsHandler (fun _ => None) db) = Written (Json.Array []).
Proof.
  intros db q args.
  pose proof (no_rows_null_no_stations_empty_array (fun _ => None) db
                "97230" "2023-01-01,2023-01-31" "tn" q args
                (fun _ => EmptyString) (fun s => s)) as [Hdata Hstations].
  split; [reflexivity|]. split.
  - apply (Hdata (Sql.mkRows ["tn"; "Tanggal"]%string [] false));
      reflexivity.
  - apply (Hstations (Sql.mkRows ["tn"; "Tanggal"]%string [] false));
      reflexivity.
Defined.

(** ** Failures of the store *)

Lemma stationsHandler_query_error
    (scanStation : list Sql.Value → option Station) (db : Sql.DB) :
  db stationsQuery [] = Sql.QueryError →
  Result (stationsHandler scanStation db) = LogFatal.
Proof. intros H. unfold stationsHandler. simpl. by rewrite H. Qed.

Lemma stationsHandler_iteration_error
    (scanStation : list Sql.Value → option Station) (db : Sql.DB) rows :
  db stationsQuery [] = Sql.QueryRows rows →
  Sql.IterErr rows = true →
  Result (stationsHandler scanStation db) = LogFatal.
Proof.
  intros H He. unfold stationsHandler. simpl. rewrite H, He.
  by destruct (collectStations _ _ _).
Qed.

Lemma fetchObservations_query_error (db : Sql.DB)
    (stationNumber dateRange fieldList q : string) (args : list string) :
  Queries (fetchObservations db stationNumber dateRange fieldList) = [(q, args)] →
  db q args = Sql.QueryError →
  Result (fetchObservations db stationNumber dateRange fieldList) = LogFatal.
Proof.
  intros Hq Hdb.
  apply fetchObservations_queried in Hq
    as (p0 & p1 & sd & ed & _ & _ & _ & _ & _ & _ & ->).
  by rewrite Hdb.
Qed.

Lemma serveAll_exited (scanStation : list Sql.Value → option Station)
    (reqs : list (Sql.DB * Request)) :
  serveAll scanStation Exited reqs = (fun _ => None) <$> reqs.
Proof. induction reqs as [|[db r] rest IH]; simpl; [done|]. by rewrite IH. Qed.

(** C3 fails on the code: one request on which the store rejects the
    statement ends the process, and the request after it, on a store
    that is fine again, is not served. *)
Theorem storage_failure_halts_the_process
    (scanStation : list Sql.Value → option Station) :
  let stations := mkRequest "GET" "/stations" ∅ in
  let data := mkRequest "GET" "/input/data"
                {[ "stationNumber"%string := ["97230"%string];
                   "dateRange"%string := ["2023-01-01,2023-01-31"%string];
                   "type"%string := ["tn"%string] ]} in
  let healthy := fixedStore (Sql.mkRows [] [] false) in
  serve scanStation Running brokenStore stations
  = (Exited, Some (mkRun [(stationsQuery, [])] LogFatal))
  ∧ fst (serve scanStation Running brokenStore data) = Exited
  ∧ serveAll scanStation Running [(brokenStore, stations); (healthy, stations)]
    = [Some (mkRun [(stationsQuery, [])] LogFatal); None]
  ∧ serveAll scanStation Running [(brokenStore, data); (healthy, stations)]
    = [Some (mkRun [(inputDataQuery (wrapQuotes "tn"),
                     ["97230"; "2023-01-01"; "2023-01-31"]%string)] LogFatal);
       None].
Proof. by vm_compute. Qed.

(** ** Malformed date ranges *)

(** A first part that is not a date ends the process; it is never
    answered with 400. *)
Lemma unparsable_start_date_is_fatal (db : Sql.DB)
    (stationNumber dateRange fieldList part0 : string) (n : Z) :
  fieldList ≠ EmptyString →
  Strconv.Atoi stationNumber = Some n →
  GoStrings.Split dateRange comma !! 0%nat = Some part0 →
  GoTime.Parse part0 = None →
  fetchObservations db stationNumber dateRange fieldList = mkRun [] LogFatal.
Proof.
  intros Hne Hn Hp0 Hs. unfold fetchObservations.
  fold (dataTypeOf fieldList). rewrite dataTypeOf_eqb_false by done.
  by rewrite Hn, Hp0, Hs.
Qed.

(** C2 fails on the code: a date that does not parse ends the process
    through [log.Fatal]; a range without a comma panics on the second
    index; a range of three parts is accepted and its third part
    dropped.  None of the three is answered with 400. *)
Theorem malformed_date_range_not_rejected (db : Sql.DB) :
  fetchObservations db "97230" "2023-13-01,2023-01-31" "tn" = mkRun [] LogFatal
  ∧ fetchObservations db "97230" "2023-01-01,tomorrow" "tn" = mkRun [] LogFatal
  ∧ fetchObservations db "97230" "2023-01-01" "tn" = mkRun [] RuntimePanic
  ∧ Queries (fetchObservations db "97230" "2023-01-01,2023-01-31,junk" "tn")
    = [(inputDataQuery (wrapQuotes "tn"),
        ["97230"; "2023-01-01"; "2023-01-31"]%string)].
Proof. repeat split; reflexivity. Qed.

(** ** The elevation of a station *)

Lemma ofFloat_finite f : finite f = true → Json.ofFloat f = Some (Json.Float f).
Proof.
  unfold finite, Json.ofFloat. by destruct (_ || _).
Qed.

Lemma ofFloat_not_finite f : finite f = false → Json.ofFloat f = None.
Proof.
  unfold finite, Json.ofFloat. by destruct (_ || _).
Qed.

(** The stations [MarshalJSON] fails on are those with a NaN or an
    infinity among the floats it writes. *)
Lemma MarshalJSON_None_iff (s : Station) :
  MarshalJSON s = None ↔ encodable s = false.
Proof.
  unfold MarshalJSON, aliasMembers, encodable.
  destruct (finite (Latitude s)) eqn:Hlat;
    [rewrite (ofFloat_finite _ Hlat) | rewrite (ofFloat_not_finite _ Hlat)];
    (destruct (finite (Longitude s)) eqn:Hlon;
      [rewrite (ofFloat_finite _ Hlon) | rewrite (ofFloat_not_finite _ Hlon)]);
    (destruct (Sql.Valid (Elevation s)); simpl; try done);
    (destruct (finite (Sql.Float64Of (Elevation s))) eqn:Hel;
      [rewrite (ofFloat_finite _ Hel) | rewrite (ofFloat_not_finite _ Hel)]);
    simpl; done.
Qed.

(** C5: the document of a station is an object with exactly one member
    named [elevation]; it is [null] when the stored elevation is absent and
    the stored number when it is present. *)
Theorem elevation_null_or_value (s : Station) :
  encodable s = true →
  ∃ members,
    MarshalJSON s = Some (Json.Object members)
    ∧ Json.membersNamed "elevation" members
      = [if Sql.Valid (Elevation s)
         then Json.Float (Sql.Float64Of (Elevation s))
         else Json.Null].
Proof.
  unfold encodable. intros H.
  apply andb_true_iff in H as [H Hel]. apply andb_true_iff in H as [Hlat Hlon].
  unfold MarshalJSON, aliasMembers.
  rewrite (ofFloat_finite _ Hlat), (ofFloat_finite _ Hlon).
  destruct (Sql.Valid (Elevation s)); simpl in *.
  - rewrite (ofFloat_finite _ Hel). simpl. eexists. split; [reflexivity|].
    reflexivity.
  - eexists. split; [reflexivity|]. reflexivity.
Qed.

Lemma elevation_null_or_value_witness :
  let unknown := mkStation 97230 "Komodo" (-8.5)%float 119.5%float
                   (Sql.mkNullFloat64 0%float false) in
  encodable unknown = true
  ∧ ∃ members,
      MarshalJSON unknown = Some (Json.Object members)
      ∧ Json.membersNamed "elevation" members = [Json.Null].
Proof.
  intros unknown. split; [reflexivity|].
  apply (elevation_null_or_value unknown). reflexivity.
Defined.

Example station_with_elevation :
  MarshalJSON (mkStation 97230 "Komodo" (-8.5)%float 119.5%float
                 (Sql.mkNullFloat64 12.5%float true))
  = Some (Json.Object
            [("station_number"%string, Json.Int 97230);
             ("station_name"%string, Json.Str "Komodo");
             ("latitude"%string, Json.Float (-8.5)%float);
             ("longitude"%string, Json.Float 119.5%float);
             ("elevation"%string, Json.Float 12.5%float)]).
Proof. reflexivity. Qed.

(** ** Result rows *)

Lemma fillMap_total columns values : ∀ i m,
  (i + length values ≤ length columns)%nat →
  is_Some (fillMap columns i values m).
Proof.
  induction values as [|val rest IH]; intros i m Hlen; simpl in *; [by eauto|].
  destruct (lookup_lt_is_Some_2 columns i) as [c Hc]; [lia|].
  rewrite Hc. apply IH. lia.
Qed.





(** ** The document of a Result Row *)

Lemma filter_key_none {V} (l : list (string * V)) c :
  c ∉ l.*1 → filter (λ kv, kv.1 = c) l = [].
Proof.
  induction l as [|[k w] l IH]; intros Hnot; [done|].
  rewrite fmap_cons in Hnot. apply not_elem_of_cons in Hnot as [Hne Hnot].
  rewrite filter_cons_False by done. by apply IH.
Qed.

Lemma filter_key_unique {V} (l : list (string * V)) c v :
  NoDup l.*1 → (c, v) ∈ l → filter (λ kv, kv.1 = c) l = [(c, v)].
Proof.
  induction l as [|[k w] l IH]; intros Hnd Hin; [by apply elem_of_nil in Hin|].
  rewrite fmap_cons in Hnd. apply NoDup_cons in Hnd as [Hk Hnd].
  apply elem_of_cons in Hin as [[= <- <-]|Hin].
  - rewrite filter_cons_True by done. f_equal. by apply filter_key_none.
  - assert (k ≠ c) as Hne.
    { intros ->. apply Hk. apply list_elem_of_fmap. by exists (c, v). }
    rewrite filter_cons_False by done. by apply IH.
Qed.

Lemma marshalEntry_key kv kv' : marshalEntry kv = Some kv' → kv'.1 = kv.1.
Proof.
  unfold marshalEntry. destruct (marshalAny kv.2); simpl; [|done].
  by intros [= <-].
Qed.

Lemma marshalEntries_named c entries members :
  Forall2 (λ kv kv', marshalEntry kv = Some kv') entries members →
  Forall2 (λ kv kv', marshalEntry kv = Some kv')
    (filter (λ kv, kv.1 = c) entries) (filter (λ kv, kv.1 = c) members).
Proof.
  induction 1 as [|kv kv' entries members Hkv _ IH]; [constructor|].
  pose proof (marshalEntry_key _ _ Hkv) as Hkey.
  destruct (decide (kv.1 = c)) as [Heq|Hne].
  - rewrite !filter_cons_True by congruence. by constructor.
  - rewrite !filter_cons_False by congruence. done.
Qed.

Lemma sortedEntries_lookup {V} (m : gmap string V) c v :
  (c, v) ∈ sortedEntries m ↔ m !! c = Some v.
Proof.
  unfold sortedEntries. rewrite merge_sort_Permutation.
  apply elem_of_map_to_list.
Qed.

Lemma sortedEntries_NoDup {V} (m : gmap string V) : NoDup (sortedEntries m).*1.
Proof.
  unfold sortedEntries. rewrite merge_sort_Permutation.
  apply NoDup_fst_map_to_list.
Qed.

(** A key of the map is written exactly once, with the document of its
    value; a name that is not a key is not written. *)
Lemma marshalMap_member (m : gmap string Sql.Value) members c :
  marshalMap m = Some (Json.Object members) →
  match m !! c with
  | Some v => ∃ jv, marshalAny v = Some jv ∧ Json.membersNamed c members = [jv]
  | None => Json.membersNamed c members = []
  end.
Proof.
  unfold marshalMap. destruct (mapM _ _) as [ms|] eqn:Hm; [|done].
  simpl. intros [= ->]. apply mapM_Some_1 in Hm.
  apply (marshalEntries_named c) in Hm. unfold Json.membersNamed.
  destruct (m !! c) as [v|] eqn:Hc.
  - rewrite (filter_key_unique _ c v) in Hm
      by (by apply sortedEntries_NoDup || by apply sortedEntries_lookup).
    apply Forall2_cons_inv_l in Hm as ([k jv] & rest & Hkv & Hrest & ->).
    apply Forall2_nil_inv_l in Hrest as ->.
    unfold marshalEntry in Hkv. simpl in Hkv.
    destruct (marshalAny v) as [jv'|]; [|done]. simpl in Hkv.
    injection Hkv as <- <-. by exists jv'.
  - rewrite filter_key_none in Hm.
    + apply Forall2_nil_inv_l in Hm. by rewrite Hm.
    + intros [[k w] [Hk Hin]]%list_elem_of_fmap. simpl in Hk. subst k.
      apply sortedEntries_lookup in Hin. congruence.
Qed.


Lemma elemsOf_append {A} (s : Slice A) x : elemsOf (append s x) = elemsOf s ++ [x].
Proof. done. Qed.

Lemma collectRows_sound columns records : ∀ results results',
  collectRows columns records results = inr results' →
  ∃ maps,
    elemsOf results' = elemsOf results ++ maps
    ∧ Forall2 (λ record resultMap,
                 length record = length columns
                 ∧ fillMap columns 0 record ∅ = Some resultMap) records maps.
Proof.
  induction records as [|record rest IH]; intros results results'; simpl.
  - intros [= <-]. exists []. by rewrite app_nil_r.
  - unfold Sql.ScanAny. destruct (Nat.eqb_spec (length record) (length columns)) as [Hlen|]; [|done].
    destruct (fillMap _ _ _ _) as [resultMap|] eqn:Hfill; [|done].
    intros Hc. apply IH in Hc as (maps & Hel & Hall).
    exists (resultMap :: maps). split.
    + rewrite Hel, elemsOf_append, <- app_assoc. done.
    + by constructor.
Qed.

Lemma collectRows_total columns records : ∀ results,
  Forall (λ record, length record = length columns) records →
  ∃ results', collectRows columns records results = inr results'.
Proof.
  induction records as [|record rest IH]; intros results Hall; simpl.
  - by eauto.
  - apply Forall_cons in Hall as [Hlen Hall].
    unfold Sql.ScanAny. rewrite Hlen, Nat.eqb_refl.
    destruct (fillMap_total columns record 0 ∅) as [resultMap ->]; [simpl; lia|].
    by apply IH.
Qed.

Lemma marshalMap_keysWritten (resultMap : gmap string Sql.Value) :
  keysWritten resultMap.
Proof.
  intros members Hm c. pose proof (marshalMap_member _ _ c Hm) as H.
  destruct (resultMap !! c) as [v|]; [|done].
  destruct H as (jv & Hjv & Hnamed). exists jv. repeat split; [done..|].
  intros ->. simpl in Hjv. by injection Hjv as <-.
Qed.

(** The scenario of one matching row with a reading and an unknown. *)
Example one_row_with_null :
  Result (fetchObservations
            (fixedStore (Sql.mkRows ["tn"; "tx"; "Tanggal"]%string
               [[Sql.Float64 24.5%float; Sql.Nil; Sql.Text "2023-01-15"]] false))
            "97230" "2023-01-01,2023-01-31" "tn,tx")
  = Written (Json.Array
               [Json.Object [("Tanggal"%string, Json.Str "2023-01-15");
                             ("tn"%string, Json.Float 24.5%float);
                             ("tx"%string, Json.Null)]]).
Proof. by vm_compute. Qed.

(** ** Dates: parsing and formatting back *)

Lemma digitVal_bounds c : isDigit c = true → 0 ≤ digitVal c ≤ 9.
Proof.
  unfold isDigit, digitVal. intros [H1 H2]%andb_true_iff.
  apply Nat.leb_le in H1, H2. lia.
Qed.

Lemma digitChar_digitVal c : isDigit c = true → digitChar (digitVal c) = c.
Proof.
  unfold isDigit, digitVal, digitChar. intros [H1 H2]%andb_true_iff.
  apply Nat.leb_le in H1, H2.
  replace (Z.to_nat (Z.of_nat (nat_of_ascii c) - 48 + 48)) with (nat_of_ascii c) by (Z.div_mod_to_equations; lia).
  apply ascii_nat_embedding.
Qed.

Lemma digit_not c d : isDigit c = true → isDigit d = false → Ascii.eqb c d = false.
Proof.
  intros Hc Hd. destruct (Ascii.eqb_spec c d) as [->|]; [congruence|done].
Qed.

Lemma leadingInt_digit c rest x :
  isDigit c = true → 0 ≤ x ≤ 1000 →
  GoTime.leadingInt (String c rest) x = GoTime.leadingInt rest (x * 10 + digitVal c).
Proof.
  intros Hc Hx. pose proof (digitVal_bounds c Hc). simpl. rewrite Hc.
  destruct (Z.ltb_spec ((2 ^ 63 - 1) / 10) x) as [Hlt|_].
  - change ((2 ^ 63 - 1) / 10) with 922337203685477580 in Hlt. lia.
  - destruct (Z.ltb_spec (2 ^ 63) (x * 10 + digitVal c)) as [Hlt|_]; [|done].
    change (2 ^ 63) with 9223372036854775808 in Hlt. lia.
Qed.

Lemma leadingInt_other c rest x :
  isDigit c = false → GoTime.leadingInt (String c rest) x = Some (x, String c rest).
Proof. intros Hc. simpl. by rewrite Hc. Qed.

Lemma longYear_Some value y rest :
  GoTime.longYear value = Some (y, rest) →
  ∃ a b c e,
    value = String a (String b (String c (String e rest)))
    ∧ isDigit a = true ∧ isDigit b = true ∧ isDigit c = true ∧ isDigit e = true
    ∧ y = fourDigits a b c e.
Proof.
  unfold GoTime.longYear.
  destruct value as [|a [|b [|c [|e rest']]]]; try done.
  destruct (isDigit a) eqn:Ha; [|done].
  unfold GoTime.atoi.
  rewrite (digit_not a hyphen Ha eq_refl), (digit_not a plus_sign Ha eq_refl).
  pose proof (digitVal_bounds a Ha).
  rewrite leadingInt_digit by (done || lia).
  destruct (isDigit b) eqn:Hb; [|by rewrite leadingInt_other].
  pose proof (digitVal_bounds b Hb).
  rewrite leadingInt_digit by (done || lia).
  destruct (isDigit c) eqn:Hc; [|by rewrite leadingInt_other].
  pose proof (digitVal_bounds c Hc).
  rewrite leadingInt_digit by (done || lia).
  destruct (isDigit e) eqn:He; [|by rewrite leadingInt_other].
  rewrite leadingInt_digit by (done || lia).
  simpl. intros [= <- <-]. exists a, b, c, e. done.
Qed.

Lemma getnum_fixed_Some value n rest :
  GoTime.getnum value true = Some (n, rest) →
  ∃ a b, value = String a (String b rest)
         ∧ isDigit a = true ∧ isDigit b = true
         ∧ n = digitVal a * 10 + digitVal b.
Proof.
  unfold GoTime.getnum. destruct value as [|a [|b rest']]; try done.
  - by destruct (isDigit a).
  - destruct (isDigit a) eqn:Ha; [|done]. destruct (isDigit b) eqn:Hb; [|done].
    intros [= <- <-]. by exists a, b.
Qed.

Lemma skip_Some value c rest :
  GoTime.skip value c = Some rest → value = String c rest.
Proof.
  unfold GoTime.skip. destruct value as [|d rest']; [done|].
  destruct (Ascii.eqb_spec d c) as [->|]; [|done]. by intros [= <-].
Qed.

(** What [time.Parse] accepts: four digits, a hyphen, two digits, a
    hyphen, two digits, and a day the month has. *)
Lemma Parse_Some value t :
  GoTime.Parse value = Some t →
  ∃ a b c e f g h i,
    value = String a (String b (String c (String e (String hyphen
              (String f (String g (String hyphen
                 (String h (String i EmptyString)))))))))
    ∧ (isDigit a = true ∧ isDigit b = true ∧ isDigit c = true ∧ isDigit e = true)
    ∧ (isDigit f = true ∧ isDigit g = true)
    ∧ (isDigit h = true ∧ isDigit i = true)
    ∧ t = GoTime.mkTime (fourDigits a b c e) (digitVal f * 10 + digitVal g)
            (digitVal h * 10 + digitVal i)
    ∧ 1 ≤ digitVal f * 10 + digitVal g ≤ 12
    ∧ 1 ≤ digitVal h * 10 + digitVal i ≤ 31.
Proof.
  unfold GoTime.Parse.
  destruct (GoTime.longYear value) as [[year v1]|] eqn:Hy; [|done].
  apply longYear_Some in Hy as (a & b & c & e & -> & Ha & Hb & Hc & He & ->).
  destruct (GoTime.skip v1 hyphen) as [v2|] eqn:H1; [|done].
  apply skip_Some in H1 as ->.
  destruct (GoTime.getnum v2 true) as [[month v3]|] eqn:Hm; [|done].
  apply getnum_fixed_Some in Hm as (f & g & -> & Hf & Hg & ->).
  destruct (_ || _) eqn:Hmr; [done|].
  apply orb_false_iff in Hmr as [Hm1 Hm2].
  apply Z.leb_gt in Hm1. apply Z.ltb_ge in Hm2.
  destruct (GoTime.skip v3 hyphen) as [v4|] eqn:H2; [|done].
  apply skip_Some in H2 as ->.
  destruct (GoTime.getnum v4 true) as [[day v5]|] eqn:Hd; [|done].
  apply getnum_fixed_Some in Hd as (h & i & -> & Hh & Hi & ->).
  destruct v5; [|done].
  destruct (_ || _) eqn:Hdr; [done|].
  apply orb_false_iff in Hdr as [Hd1 Hd2].
  apply Z.ltb_ge in Hd1. apply Z.ltb_ge in Hd2.
  intros [= <-]. exists a, b, c, e, f, g, h, i.
  repeat split; try done; try lia.
  revert Hd2. unfold GoTime.daysIn.
  repeat match goal with |- context [if ?x then _ else _] => destruct x end; lia.
Qed.

Lemma digitsOf_step fuel x acc :
  GoTime.digitsOf (S fuel) x acc
  = if x / 10 =? 0 then String (digitChar (x mod 10)) acc
    else GoTime.digitsOf fuel (x / 10) (String (digitChar (x mod 10)) acc).
Proof. reflexivity. Qed.

Lemma appendInt_two x :
  0 ≤ x < 100 →
  GoTime.appendInt x 2
  = String (digitChar (x / 10)) (String (digitChar (x mod 10)) EmptyString).
Proof.
  intros Hx. unfold GoTime.appendInt. rewrite digitsOf_step.
  destruct (Z.eqb_spec (x / 10) 0) as [H1|H1].
  - rewrite H1. reflexivity.
  - rewrite digitsOf_step.
    replace (x / 10 / 10) with 0 by (Z.div_mod_to_equations; lia).
    replace (x / 10 mod 10) with (x / 10) by (Z.div_mod_to_equations; lia).
    reflexivity.
Qed.

Lemma appendInt_four x :
  0 ≤ x < 10000 →
  GoTime.appendInt x 4
  = String (digitChar (x / 1000)) (String (digitChar (x / 100 mod 10))
      (String (digitChar (x / 10 mod 10)) (String (digitChar (x mod 10)) EmptyString))).
Proof.
  intros Hx. unfold GoTime.appendInt. rewrite digitsOf_step.
  destruct (Z.eqb_spec (x / 10) 0) as [H1|H1].
  { replace (x / 1000) with 0 by (Z.div_mod_to_equations; lia).
    replace (x / 100) with 0 by (Z.div_mod_to_equations; lia).
    rewrite H1. reflexivity. }
  rewrite digitsOf_step.
  replace (x / 10 / 10) with (x / 100) by (Z.div_mod_to_equations; lia).
  destruct (Z.eqb_spec (x / 100) 0) as [H2|H2].
  { replace (x / 1000) with 0 by (Z.div_mod_to_equations; lia).
    rewrite H2. reflexivity. }
  rewrite digitsOf_step.
  replace (x / 100 / 10) with (x / 1000) by (Z.div_mod_to_equations; lia).
  destruct (Z.eqb_spec (x / 1000) 0) as [H3|H3].
  { rewrite H3. reflexivity. }
  rewrite digitsOf_step.
  replace (x / 1000 / 10) with 0 by (Z.div_mod_to_equations; lia).
  replace (x / 1000 mod 10) with (x / 1000) by (Z.div_mod_to_equations; lia).
  reflexivity.
Qed.

(** Formatting a parsed date gives the text that was parsed. *)
Lemma Format_Parse value t : GoTime.Parse value = Some t → GoTime.Format t = value.
Proof.
  intros (a & b & c & e & f & g & h & i & -> & (Ha & Hb & Hc & He) & (Hf & Hg)
          & (Hh & Hi) & -> & _ & _)%Parse_Some.
  pose proof (digitVal_bounds _ Ha). pose proof (digitVal_bounds _ Hb).
  pose proof (digitVal_bounds _ Hc). pose proof (digitVal_bounds _ He).
  pose proof (digitVal_bounds _ Hf). pose proof (digitVal_bounds _ Hg).
  pose proof (digitVal_bounds _ Hh). pose proof (digitVal_bounds _ Hi).
  unfold GoTime.Format, fourDigits. simpl GoTime.Year. simpl GoTime.Month. simpl GoTime.Day.
  rewrite appendInt_four by lia. rewrite !appendInt_two by (Z.div_mod_to_equations; lia).
  replace ((((digitVal a * 10 + digitVal b) * 10 + digitVal c) * 10 + digitVal e) / 1000)
    with (digitVal a) by (Z.div_mod_to_equations; lia).
  replace ((((digitVal a * 10 + digitVal b) * 10 + digitVal c) * 10 + digitVal e) / 100 mod 10)
    with (digitVal b) by (Z.div_mod_to_equations; lia).
  replace ((((digitVal a * 10 + digitVal b) * 10 + digitVal c) * 10 + digitVal e) / 10 mod 10)
    with (digitVal c) by (Z.div_mod_to_equations; lia).
  replace ((((digitVal a * 10 + digitVal b) * 10 + digitVal c) * 10 + digitVal e) mod 10)
    with (digitVal e) by (Z.div_mod_to_equations; lia).
  replace ((digitVal f * 10 + digitVal g) / 10) with (digitVal f) by (Z.div_mod_to_equations; lia).
  replace ((digitVal f * 10 + digitVal g) mod 10) with (digitVal g) by (Z.div_mod_to_equations; lia).
  replace ((digitVal h * 10 + digitVal i) / 10) with (digitVal h) by (Z.div_mod_to_equations; lia).
  replace ((digitVal h * 10 + digitVal i) mod 10) with (digitVal i) by (Z.div_mod_to_equations; lia).
  rewrite !digitChar_digitVal by done. reflexivity.
Qed.

Lemma Split_no_sep s sep :
  GoStrings.ContainsByte s sep = false → GoStrings.Split s sep = [s].
Proof.
  induction s as [|c rest IH]; simpl; [done|].
  intros [Hc Hrest]%orb_false_iff. rewrite Hc, IH; done.
Qed.

Lemma Split_app_sep s rest sep :
  GoStrings.ContainsByte s sep = false →
  GoStrings.Split (s +:+ String sep rest) sep = s :: GoStrings.Split rest sep.
Proof.
  induction s as [|c s IH]; simpl.
  - intros _. by rewrite Ascii.eqb_refl.
  - intros [Hc Hs]%orb_false_iff. rewrite Hc, IH; done.
Qed.

Lemma Parse_no_comma value t :
  GoTime.Parse value = Some t → GoStrings.ContainsByte value comma = false.
Proof.
  intros (a & b & c & e & f & g & h & i & -> & (Ha & Hb & Hc & He) & (Hf & Hg)
          & (Hh & Hi) & _)%Parse_Some.
  simpl.
  rewrite !(digit_not _ comma) by done. reflexivity.
Qed.

(** The two parts of a range written as two dates around one comma. *)
Lemma Split_date_range part0 part1 startDate endDate :
  GoTime.Parse part0 = Some startDate →
  GoTime.Parse part1 = Some endDate →
  GoStrings.Split (part0 +:+ String comma part1) comma = [part0; part1].
Proof.
  intros H0 H1. rewrite Split_app_sep by (by eapply Parse_no_comma).
  rewrite Split_no_sep by (by eapply Parse_no_comma). done.
Qed.

(** ** Reversed date ranges *)

Lemma After_false t u :
  GoTime.After t u = false
  ↔ GoTime.Year t < GoTime.Year u
    ∨ (GoTime.Year t = GoTime.Year u
       ∧ (GoTime.Month t < GoTime.Month u
          ∨ (GoTime.Month t = GoTime.Month u ∧ GoTime.Day t ≤ GoTime.Day u))).
Proof.
  unfold GoTime.After.
  rewrite !orb_false_iff, !andb_false_iff, !orb_false_iff, !andb_false_iff,
    !Z.ltb_ge, !Z.eqb_neq.
  lia.
Qed.

Lemma After_between l d h :
  GoTime.After l d = false → GoTime.After d h = false → GoTime.After l h = false.
Proof. rewrite !After_false. lia. Qed.

Lemma betweenDates_reversed lo hi l h d :
  GoTime.Parse lo = Some l → GoTime.Parse hi = Some h →
  GoTime.After l h = true →
  betweenDates lo hi d = false.
Proof.
  intros Hl Hh Hrev. unfold betweenDates. rewrite Hl, Hh.
  destruct (GoTime.After l d) eqn:H1; [done|].
  destruct (GoTime.After d h) eqn:H2; [done|].
  pose proof (After_between _ _ _ H1 H2). congruence.
Qed.

(** C8: a request in order whose range runs backwards is not turned
    away and does not end the process by itself: the statement is sent
    with the two dates in the order given, and on a store that honours
    the BETWEEN condition the result set is empty and the body written is
    [null], the encoding of zero Result Rows. *)
Theorem reversed_range_runs_and_is_empty (db : Sql.DB)
    (stationNumber fieldList part0 part1 : string) (n : Z)
    (startDate endDate : GoTime.Time) (rows : Sql.Rows) :
  fieldList ≠ EmptyString →
  Strconv.Atoi stationNumber = Some n →
  GoTime.Parse part0 = Some startDate →
  GoTime.Parse part1 = Some endDate →
  GoTime.After startDate endDate = true →
  let q := inputDataQuery (dataTypeOf fieldList) in
  let args := [stationNumber; part0; part1] in
  let run := fetchObservations db stationNumber
               (part0 +:+ String comma part1) fieldList in
  Queries run = [(q, args)]
  ∧ (db q args = Sql.QueryRows rows →
     honoursBetween args rows →
     Sql.Records rows = []
     ∧ collectRows (Sql.Columns rows) (Sql.Records rows) NilSlice = inr NilSlice
     ∧ Result run = Written Json.Null).
Proof.
  intros Hne Hn H0 H1 Hrev q args run.
  assert (Hrun : run = mkRun [(q, args)] (writeResults (db q args))).
  { unfold run.
    erewrite (fetchObservations_valid db stationNumber _ fieldList part0 part1);
      [|done|done| | |done|done].
    - simpl. unfold q, args. by rewrite (Format_Parse _ _ H0), (Format_Parse _ _ H1).
    - by erewrite Split_date_range.
    - by erewrite Split_date_range. }
  split; [by rewrite Hrun|].
  intros Hdb (dates & Hlen & Hall).
  assert (Sql.Records rows = []) as Hrec.
  { destruct dates as [|d dates].
    - by destruct (Sql.Records rows).
    - apply Forall_cons in Hall as [Hd _].
      by rewrite (betweenDates_reversed _ _ _ _ d H0 H1 Hrev) in Hd. }
  rewrite Hrun, Hrec. simpl. rewrite Hdb. unfold writeResults. by rewrite Hrec.
Qed.

Lemma tableStore_honours columns table q (stationNumber lo hi : string) :
  ∃ rows, tableStore columns table q [stationNumber; lo; hi] = Sql.QueryRows rows
          ∧ honoursBetween [stationNumber; lo; hi] rows.
Proof.
  eexists. split; [reflexivity|]. simpl.
  exists (fst <$> filter (λ o, betweenDates lo hi o.1 = true) table).
  split; [by rewrite !length_fmap|].
  apply Forall_fmap, Forall_forall. by intros o [Ho _]%list_elem_of_filter.
Qed.

Lemma reversed_range_runs_and_is_empty_witness :
  let table := [(GoTime.mkTime 2023 1 5,
                 [Sql.Float64 24.5%float; Sql.Text "2023-01-05"])] in
  let db := tableStore ["tn"; "Tanggal"]%string table in
  let run := fetchObservations db "97230" "2023-01-10,2023-01-01" "tn" in
  GoTime.After (GoTime.mkTime 2023 1 10) (GoTime.mkTime 2023 1 1) = true
  ∧ Queries run = [(inputDataQuery (dataTypeOf "tn"),
                    ["97230"; "2023-01-10"; "2023-01-01"]%string)]
  ∧ Result run = Written Json.Null.
Proof.
  intros table db run.
  destruct (tableStore_honours ["tn"; "Tanggal"]%string table
              (inputDataQuery (dataTypeOf "tn")) "97230" "2023-01-10" "2023-01-01")
    as (rows & Hdb & Hhonours).
  destruct (reversed_range_runs_and_is_empty db "97230" "tn"
              "2023-01-10" "2023-01-01" 97230
              (GoTime.mkTime 2023 1 10) (GoTime.mkTime 2023 1 1) rows)
    as [Hq Hres].
  - done.
  - reflexivity.
  - reflexivity.
  - reflexivity.
  - reflexivity.
  - split; [reflexivity|]. split; [exact Hq|].
    by destruct (Hres Hdb Hhonours) as (_ & _ & ?).
Defined.

(** The same store does return the observation when the range is the
    right way round. *)
Example forward_range_finds_the_row :
  Result (fetchObservations
            (tableStore ["tn"; "Tanggal"]%string
               [(GoTime.mkTime 2023 1 5,
                 [Sql.Float64 24.5%float; Sql.Text "2023-01-05"])])
            "97230" "2023-01-01,2023-01-10" "tn")
  = Written (Json.Array
               [Json.Object [("Tanggal"%string, Json.Str "2023-01-05");
                             ("tn"%string, Json.Float 24.5%float)]]).
Proof. by vm_compute. Qed.

(** ** Field names in the statement text *)

Lemma append_nil_l (s : string) : EmptyString +:+ s = s.
Proof. reflexivity. Qed.

Lemma append_cons (c : ascii) (s t : string) :
  String c s +:+ t = String c (s +:+ t).
Proof. reflexivity. Qed.

Lemma append_assoc_string (s t u : string) : (s +:+ t) +:+ u = s +:+ (t +:+ u).
Proof.
  induction s as [|c s IH]; [done|].
  change (String c ((s +:+ t) +:+ u) = String c (s +:+ t +:+ u)). by f_equal.
Qed.

(** A correctly escaped identifier is read back as the name it was made
    from, and the reader stops right after it. *)
Lemma scanBody_escape s rest :
  match rest with String c _ => c ≠ dquote | EmptyString => True end →
  Ident.scanBody (Ident.escape s +:+ String dquote rest) = Some (s, rest).
Proof.
  intros Hrest. induction s as [|c s IH]; simpl.
  - rewrite ?append_nil_l. simpl. rewrite ?Ascii.eqb_refl. destruct rest as [|d rest']; [done|].
    by destruct (Ascii.eqb_spec d dquote).
  - destruct (Ascii.eqb_spec c dquote) as [->|Hne];
      rewrite ?append_cons; simpl.
    + rewrite ?Ascii.eqb_refl, IH. done.
    + destruct (Ascii.eqb_spec c dquote); [done|]. by rewrite IH.
Qed.

Lemma scan_quote s rest :
  match rest with String c _ => c ≠ dquote | EmptyString => True end →
  Ident.scan (Ident.quote s +:+ rest) = Some (s, rest).
Proof.
  intros Hrest. unfold Ident.quote, Ident.scan.
  rewrite append_cons, Ascii.eqb_refl, append_assoc_string, append_cons, append_nil_l.
  by apply scanBody_escape.
Qed.

Lemma escape_clean s :
  GoStrings.ContainsByte s dquote = false → Ident.escape s = s.
Proof.
  induction s as [|c s IH]; simpl; [done|].
  intros [Hc Hs]%orb_false_iff. rewrite Hc, IH; done.
Qed.

(** What the handler does to a token is the correct quoting as long as
    the token has no double quote in it: a semicolon, a space or a
    keyword stays inside the identifier. *)
Lemma wrapQuotes_clean s rest :
  GoStrings.ContainsByte s dquote = false →
  match rest with String c _ => c ≠ dquote | EmptyString => True end →
  wrapQuotes s = Ident.quote s
  ∧ Ident.scan (wrapQuotes s +:+ rest) = Some (s, rest).
Proof.
  intros Hs Hrest.
  assert (wrapQuotes s = Ident.quote s) as ->.
  { unfold wrapQuotes, Ident.quote. by rewrite escape_clean. }
  split; [done|]. by apply scan_quote.
Qed.

Example semicolon_stays_inside (db : Sql.DB) :
  let token := "tn;DROP TABLE Weather"%string in
  Queries (fetchObservations db "97230" "2023-01-01,2023-01-31" token)
  = [(inputDataQuery (wrapQuotes token),
      ["97230"; "2023-01-01"; "2023-01-31"]%string)]
  ∧ Ident.scan (wrapQuotes token +:+ selectTail) = Some (token, selectTail).
Proof. split; reflexivity. Qed.

(** C1 fails on the code: a token with a double quote in it is neither
    turned away nor escaped.  The statement is sent with the token between
    two quotes as it came; read as SQL, its select list starts with the
    identifier [tn] alone, and the rest of the token stands outside any
    identifier, as a FROM clause and a comment marker in front of the
    text of the handler.  Correctly escaped, the same token would be read
    back whole, followed by that text. *)
Theorem embedded_quote_ends_the_identifier (db : Sql.DB) :
  Queries (fetchObservations db "97230" "2023-01-01,2023-01-31" injectedType)
  = [(inputDataQuery (wrapQuotes injectedType),
      ["97230"; "2023-01-01"; "2023-01-31"]%string)]
  ∧ Ident.scan (wrapQuotes injectedType +:+ selectTail)
    = Some ("tn"%string,
            " FROM " +:+ wrapQuotes "Weather" +:+ " --"
              +:+ String dquote selectTail)
  ∧ Ident.scan (Ident.quote injectedType +:+ selectTail)
    = Some (injectedType, selectTail).
Proof. repeat split; reflexivity. Qed.

(** * Further properties of the handlers *)

(** ** When a statement is sent *)

Lemma writeResults_not_HttpError answer code msg :
  writeResults answer ≠ HttpError code msg.
Proof.
  destruct answer as [|rows]; simpl; [done|].
  destruct (collectRows _ _ _) as [stop|results] eqn:E.
  - by apply collectRows_stop in E as [-> | ->].
  - by destruct (marshalResults results).
Qed.

(** X1: the [/input/data] handler sends its statement exactly when the
    request is not a preflight, [type] is not empty, [stationNumber]
    is read by [strconv.Atoi], and the first two comma-separated parts of
    [dateRange] exist and are dates. *)
Theorem statement_sent_iff (db : Sql.DB) (r : Request) :
  accepted (inputDataHandler db r)
  ↔ Method r ≠ MethodOptions
    ∧ Get (URLQuery r) "type" ≠ EmptyString
    ∧ is_Some (Strconv.Atoi (Get (URLQuery r) "stationNumber"))
    ∧ ∃ part0 part1,
        GoStrings.Split (Get (URLQuery r) "dateRange") comma !! 0%nat = Some part0
        ∧ GoStrings.Split (Get (URLQuery r) "dateRange") comma !! 1%nat = Some part1
        ∧ is_Some (GoTime.Parse part0)
        ∧ is_Some (GoTime.Parse part1).
Proof.
  unfold accepted, inputDataHandler.
  destruct (String.eqb_spec (Method r) MethodOptions) as [Hm|Hm].
  { simpl. split; [done|]. by intros [? _]. }
  unfold fetchObservations. fold (dataTypeOf (Get (URLQuery r) "type")).
  destruct (String.eqb _ _) eqn:Ht.
  { apply dataTypeOf_empty_iff in Ht. simpl. split; [done|]. by intros (_ & ? & _). }
  assert (Get (URLQuery r) "type" ≠ EmptyString) as Hne.
  { intros He. apply dataTypeOf_empty_iff in He. congruence. }
  destruct (Strconv.Atoi _) as [n|].
  2:{ simpl. split; [done|]. by intros (_ & _ & [? ?] & _). }
  destruct (_ !! 0%nat) as [p0|].
  2:{ simpl. split; [done|]. by intros (_ & _ & _ & ? & ? & ? & _). }
  destruct (GoTime.Parse p0) as [sd|] eqn:H0.
  2:{ simpl. split; [done|].
      intros (_ & _ & _ & q0 & q1 & [= <-] & _ & [? Hq] & _). congruence. }
  destruct (_ !! 1%nat) as [p1|].
  2:{ simpl. split; [done|]. by intros (_ & _ & _ & ? & ? & _ & ? & _). }
  destruct (GoTime.Parse p1) as [ed|] eqn:H1.
  2:{ simpl. split; [done|].
      intros (_ & _ & _ & q0 & q1 & _ & [= <-] & _ & [? Hq]). congruence. }
  simpl. split; [|done]. intros _.
  repeat split; [done|done|by eauto|]. exists p0, p1. rewrite H0, H1. by eauto.
Qed.

(** ** What the statement carries *)

(** X2: whenever a statement is sent it is the only one of the run, and its
    three arguments are the [stationNumber] parameter and the first two
    parts of [dateRange], byte for byte: parsing a date and formatting it
    back changes nothing. *)
Theorem statement_arguments_verbatim (db : Sql.DB)
    (stationNumber dateRange fieldList : string) :
  accepted (fetchObservations db stationNumber dateRange fieldList) →
  ∃ part0 part1,
    GoStrings.Split dateRange comma !! 0%nat = Some part0
    ∧ GoStrings.Split dateRange comma !! 1%nat = Some part1
    ∧ Queries (fetchObservations db stationNumber dateRange fieldList)
      = [(inputDataQuery (dataTypeOf fieldList), [stationNumber; part0; part1])].
Proof.
  unfold accepted.
  destruct (Queries _) as [|[q args] more] eqn:Hq; [done|]. intros _.
  assert (more = []) as ->.
  { revert Hq. unfold fetchObservations.
    repeat match goal with
           | |- context [match ?x with _ => _ end] => destruct x; simpl; try done
           | |- context [if ?x then _ else _] => destruct x; simpl; try done
           end.
    by intros [= _ _ <-]. }
  apply fetchObservations_queried in Hq
    as (p0 & p1 & sd & ed & Hp0 & Hp1 & Hs & He & -> & -> & _).
  exists p0, p1. by rewrite (Format_Parse _ _ Hs), (Format_Parse _ _ He).
Qed.

Lemma statement_arguments_verbatim_witness :
  accepted (fetchObservations brokenStore "97230" "2023-01-01,2023-01-31,junk" "tn")
  ∧ ∃ part0 part1,
      GoStrings.Split "2023-01-01,2023-01-31,junk" comma !! 0%nat = Some part0
      ∧ GoStrings.Split "2023-01-01,2023-01-31,junk" comma !! 1%nat = Some part1
      ∧ Queries (fetchObservations brokenStore "97230"
                   "2023-01-01,2023-01-31,junk" "tn")
        = [(inputDataQuery (dataTypeOf "tn"), ["97230"%string; part0; part1])].
Proof.
  assert (Hacc : accepted (fetchObservations brokenStore "97230"
                             "2023-01-01,2023-01-31,junk" "tn")).
  { unfold accepted. simpl. discriminate. }
  split; [exact Hacc|].
  exact (statement_arguments_verbatim brokenStore "97230"
           "2023-01-01,2023-01-31,junk" "tn" Hacc).
Defined.

(** X3: whatever follows the second part of [dateRange] is not looked at:
    the run is the one of the range made of the first two parts. *)
Theorem extra_range_parts_ignored (db : Sql.DB)
    (stationNumber dateRange fieldList part0 part1 : string)
    (startDate endDate : GoTime.Time) :
  GoStrings.Split dateRange comma !! 0%nat = Some part0 →
  GoStrings.Split dateRange comma !! 1%nat = Some part1 →
  GoTime.Parse part0 = Some startDate →
  GoTime.Parse part1 = Some endDate →
  fetchObservations db stationNumber dateRange fieldList
  = fetchObservations db stationNumber (part0 +:+ String comma part1) fieldList.
Proof.
  intros Hp0 Hp1 Hs He. unfold fetchObservations.
  destruct (String.eqb _ _); [done|].
  destruct (Strconv.Atoi _); [|done].
  rewrite (Split_date_range _ _ _ _ Hs He). simpl.
  by rewrite Hp0, Hp1, Hs, He.
Qed.

Lemma extra_range_parts_ignored_witness :
  fetchObservations brokenStore "97230" "2023-01-01,2023-01-31,junk,more" "tn"
  = fetchObservations brokenStore "97230"
      ("2023-01-01" +:+ String comma "2023-01-31") "tn".
Proof.
  apply (extra_range_parts_ignored brokenStore "97230"
           "2023-01-01,2023-01-31,junk,more" "tn" "2023-01-01" "2023-01-31"
           (GoTime.mkTime 2023 1 1) (GoTime.mkTime 2023 1 31));
    reflexivity.
Defined.

(** ** Requests answered with an error status *)

(** X4: a request answered with an HTTP error status (the 400 of the two
    checks, the 404 of an unknown path) has sent nothing to the store, on
    any route. *)
Theorem error_status_without_statement
    (scanStation : list Sql.Value → option Station) (db : Sql.DB)
    (r : Request) (code : Z) (msg : string) :
  Result (route scanStation db r) = HttpError code msg →
  Queries (route scanStation db r) = []
  ∧ (code = StatusBadRequest ∨ code = StatusNotFound).
Proof.
  unfold route.
  destruct (String.eqb (Path r) "/stations").
  { unfold stationsHandler. simpl.
    destruct (db _ _) as [|rows]; [done|].
    destruct (collectStations _ _ _); [|done].
    destruct (Sql.IterErr rows); [done|].
    by destruct (marshalStations _). }
  destruct (String.eqb (Path r) "/input/data").
  2:{ simpl. intros [= <- _]. by auto. }
  unfold inputDataHandler. destruct (String.eqb _ _); [done|].
  unfold fetchObservations.
  destruct (String.eqb _ _); [simpl; intros [= <- _]; by auto|].
  destruct (Strconv.Atoi _); [|simpl; intros [= <- _]; by auto].
  destruct (_ !! 0%nat); [|done]. destruct (GoTime.Parse _); [|done].
  destruct (_ !! 1%nat); [|done]. destruct (GoTime.Parse _); [|done].
  simpl. intros H. by apply writeResults_not_HttpError in H.
Qed.

Lemma error_status_without_statement_witness :
  let r := mkRequest "GET" "/weather" ∅ in
  Result (route (λ _, None) brokenStore r)
  = HttpError StatusNotFound "404 page not found"
  ∧ Queries (route (λ _, None) brokenStore r) = []
  ∧ (StatusNotFound = StatusBadRequest ∨ StatusNotFound = StatusNotFound).
Proof.
  intros r. split; [reflexivity|].
  apply (error_status_without_statement (λ _, None) brokenStore r
           StatusNotFound "404 page not found").
  reflexivity.
Defined.

(** ** The life of the process *)

(** X5: as long as no handler reaches [log.Fatal], every request is
    served: an error answer, a preflight or a panic in a handler leaves
    the process running. *)
Theorem served_when_nothing_fatal (scanStation : list Sql.Value → option Station)
    (reqs : list (Sql.DB * Request)) :
  Forall (λ x, Result (route scanStation x.1 x.2) ≠ LogFatal) reqs →
  serveAll scanStation Running reqs
  = (λ x, Some (route scanStation x.1 x.2)) <$> reqs.
Proof.
  induction reqs as [|[db r] rest IH]; [done|].
  intros [Hhead Hrest]%Forall_cons. simpl in *.
  destruct (Result (route scanStation db r)) eqn:E; try done;
    by rewrite IH.
Qed.

Lemma served_when_nothing_fatal_witness :
  let panics := mkRequest "GET" "/input/data"
                  {[ "stationNumber"%string := ["97230"%string];
                     "dateRange"%string := ["2023-01-01"%string];
                     "type"%string := ["tn"%string] ]} in
  let stations := mkRequest "GET" "/stations" ∅ in
  let healthy := fixedStore (Sql.mkRows [] [] false) in
  serveAll (λ _, None) Running [(brokenStore, panics); (healthy, stations)]
  = [Some (mkRun [] RuntimePanic);
     Some (mkRun [(stationsQuery, [])] (Written (Json.Array [])))].
Proof.
  intros panics stations healthy.
  rewrite (served_when_nothing_fatal (λ _, None)
             [(brokenStore, panics); (healthy, stations)]).
  - reflexivity.
  - apply Forall_cons. split; [vm_compute; discriminate|].
    apply Forall_cons. split; [vm_compute; discriminate|]. apply Forall_nil. done.
Defined.

(** X6: the requests before the first one that ends in [log.Fatal] are all
    served, that one is run, and none after it is served, whatever the
    store would answer then. *)
Theorem served_until_first_fatal
    (scanStation : list Sql.Value → option Station)
    (before after : list (Sql.DB * Request)) (db : Sql.DB) (r : Request) :
  Forall (λ x, Result (route scanStation x.1 x.2) ≠ LogFatal) before →
  Result (route scanStation db r) = LogFatal →
  serveAll scanStation Running (before ++ (db, r) :: after)
  = ((λ x, Some (route scanStation x.1 x.2)) <$> before)
    ++ Some (route scanStation db r) :: ((λ _, None) <$> after).
Proof.
  intros Hbefore Hfatal.
  induction before as [|[db' r'] rest IH]; simpl.
  - rewrite Hfatal. by rewrite serveAll_exited.
  - apply Forall_cons in Hbefore as [Hhead Hrest]. simpl in Hhead.
    destruct (Result (route scanStation db' r')) eqn:E; try done;
      by rewrite IH.
Qed.

Lemma served_until_first_fatal_witness :
  let unknown := mkRequest "GET" "/weather" ∅ in
  let stations := mkRequest "GET" "/stations" ∅ in
  let healthy := fixedStore (Sql.mkRows [] [] false) in
  serveAll (λ _, None) Running
    ([(healthy, unknown)] ++ (brokenStore, stations) :: [(healthy, stations)])
  = [Some (mkRun [] (HttpError StatusNotFound "404 page not found"));
     Some (mkRun [(stationsQuery, [])] LogFatal);
     None].
Proof.
  intros unknown stations healthy.
  rewrite (served_until_first_fatal (λ _, None) [(healthy, unknown)]
             [(healthy, stations)] brokenStore stations).
  - reflexivity.
  - apply Forall_cons. split; [vm_compute; discriminate|]. apply Forall_nil. done.
  - reflexivity.
Defined.

(** ** Dates: what is accepted *)

Lemma isDigit_digitChar k : 0 ≤ k ≤ 9 → isDigit (digitChar k) = true.
Proof.
  intros Hk. unfold isDigit, digitChar.
  rewrite nat_ascii_embedding by lia.
  apply andb_true_iff. split; apply Nat.leb_le; lia.
Qed.

Lemma digitVal_digitChar k : 0 ≤ k ≤ 9 → digitVal (digitChar k) = k.
Proof.
  intros Hk. unfold digitVal, digitChar.
  rewrite nat_ascii_embedding by lia. lia.
Qed.

Lemma longYear_digits a b c e rest :
  isDigit a = true → isDigit b = true → isDigit c = true → isDigit e = true →
  GoTime.longYear (String a (String b (String c (String e rest))))
  = Some (fourDigits a b c e, rest).
Proof.
  intros Ha Hb Hc He. unfold GoTime.longYear, GoTime.atoi. rewrite Ha.
  rewrite (digit_not a hyphen Ha eq_refl), (digit_not a plus_sign Ha eq_refl).
  pose proof (digitVal_bounds a Ha). pose proof (digitVal_bounds b Hb).
  pose proof (digitVal_bounds c Hc). pose proof (digitVal_bounds e He).
  rewrite !leadingInt_digit by (done || lia). reflexivity.
Qed.

Lemma getnum_digits a b rest :
  isDigit a = true → isDigit b = true →
  GoTime.getnum (String a (String b rest)) true
  = Some (digitVal a * 10 + digitVal b, rest).
Proof. intros Ha Hb. unfold GoTime.getnum. by rewrite Ha, Hb. Qed.

Lemma skip_same c rest : GoTime.skip (String c rest) c = Some rest.
Proof. unfold GoTime.skip. by rewrite Ascii.eqb_refl. Qed.

Lemma Parse_valid value t : GoTime.Parse value = Some t → validDate t = true.
Proof.
  intros Hp. pose proof Hp as Hshape.
  apply Parse_Some in Hshape
    as (a & b & c & e & f & g & h & i & -> & (Ha & Hb & Hc & He) & (Hf & Hg)
        & (Hh & Hi) & -> & Hm & _).
  pose proof (digitVal_bounds _ Ha). pose proof (digitVal_bounds _ Hb).
  pose proof (digitVal_bounds _ Hc). pose proof (digitVal_bounds _ He).
  revert Hp. unfold GoTime.Parse.
  rewrite longYear_digits by done. rewrite skip_same.
  rewrite getnum_digits by done.
  destruct (_ || _); [done|]. rewrite skip_same.
  rewrite getnum_digits by done.
  destruct (_ || _) eqn:Hd; [done|]. intros _.
  apply orb_false_iff in Hd as [Hd1 Hd2].
  apply Z.ltb_ge in Hd1. apply Z.ltb_ge in Hd2.
  unfold validDate, fourDigits in *. simpl.
  repeat (apply andb_true_iff; split); apply Z.leb_le; lia.
Qed.

Lemma Parse_Format t : validDate t = true → GoTime.Parse (GoTime.Format t) = Some t.
Proof.
  destruct t as [y m d]. unfold validDate. simpl.
  rewrite !andb_true_iff, !Z.leb_le. intros [[[[[Hy0 Hy1] Hm0] Hm1] Hd0] Hd1].
  assert (d ≤ 31) as Hd31.
  { revert Hd1. unfold GoTime.daysIn.
    repeat match goal with |- context [if ?x then _ else _] => destruct x end; lia. }
  unfold GoTime.Format. simpl.
  rewrite appendInt_four by lia. rewrite !appendInt_two by lia.
  assert (∀ k, 0 ≤ k ≤ 9 → isDigit (digitChar k) = true) as Hdig
    by apply isDigit_digitChar.
  unfold GoTime.Parse.
  rewrite (append_cons _ _ _), (append_cons _ _ _), (append_cons _ _ _),
    (append_cons _ _ _), append_nil_l.
  rewrite longYear_digits by (apply Hdig; Z.div_mod_to_equations; lia).
  rewrite append_cons, skip_same.
  rewrite (append_cons _ _ _), (append_cons _ _ _), append_nil_l.
  rewrite getnum_digits by (apply Hdig; Z.div_mod_to_equations; lia).
  rewrite !digitVal_digitChar by (Z.div_mod_to_equations; lia).
  replace (m / 10 * 10 + m mod 10) with m by (Z.div_mod_to_equations; lia).
  destruct (Z.leb_spec m 0); [lia|]. destruct (Z.ltb_spec 12 m); [lia|].
  rewrite skip_same.
  rewrite getnum_digits by (apply Hdig; Z.div_mod_to_equations; lia).
  rewrite !digitVal_digitChar by (Z.div_mod_to_equations; lia).
  replace (d / 10 * 10 + d mod 10) with d by (Z.div_mod_to_equations; lia).
  unfold fourDigits.
  rewrite !digitVal_digitChar by (Z.div_mod_to_equations; lia).
  replace (((y / 1000 * 10 + y / 100 mod 10) * 10 + y / 10 mod 10) * 10 + y mod 10)
    with y by (Z.div_mod_to_equations; lia).
  destruct (Z.ltb_spec d 1); [lia|].
  destruct (Z.ltb_spec (GoTime.daysIn m y) d); [lia|]. reflexivity.
Qed.

(** X7: [time.Parse] with the layout of the handler accepts exactly the
    texts [Format] writes for the dates of the calendar (years 0 to
    9999, the day within the month, leap years counted), and returns
    that date. *)
Theorem Parse_iff_canonical (value : string) (t : GoTime.Time) :
  GoTime.Parse value = Some t ↔ validDate t = true ∧ value = GoTime.Format t.
Proof.
  split.
  - intros Hp. split; [by eapply Parse_valid|]. symmetry. by apply Format_Parse.
  - intros [Hv ->]. by apply Parse_Format.
Qed.

(** ** The station number that reaches the store *)

Lemma parseDigits_allDigits s : ∀ acc n,
  Strconv.parseDigits s acc = Some n → allDigits s = true.
Proof.
  induction s as [|c rest IH]; intros acc n; simpl; [done|].
  destruct (isDigit c); [|done]. simpl. apply IH.
Qed.

Lemma Atoi_signedDigits s n : Strconv.Atoi s = Some n → signedDigits s = true.
Proof.
  unfold Strconv.Atoi, signedDigits. destruct s as [|c rest]; [done|].
  destruct (Ascii.eqb c hyphen || Ascii.eqb c plus_sign) eqn:Hsign.
  - replace (if Ascii.eqb c hyphen || Ascii.eqb c plus_sign then rest
             else String c rest) with rest by (by rewrite Hsign).
    destruct rest as [|d rest']; [done|].
    destruct (Strconv.parseDigits _ _) as [m|] eqn:Hp; [|done].
    intros _. simpl negb. by apply parseDigits_allDigits in Hp.
  - destruct (Strconv.parseDigits _ _) as [m|] eqn:Hp; [|done].
    intros _. by apply parseDigits_allDigits in Hp.
Qed.

(** X8: the first argument of every statement sent is an optional sign
    followed by decimal digits and nothing else: no space, no letter, no
    quote reaches the store through [stationNumber]. *)
Theorem station_argument_is_signed_digits (db : Sql.DB)
    (stationNumber dateRange fieldList : string) :
  accepted (fetchObservations db stationNumber dateRange fieldList) →
  signedDigits stationNumber = true.
Proof.
  unfold accepted, fetchObservations.
  destruct (String.eqb _ _); [done|].
  destruct (Strconv.Atoi stationNumber) as [n|] eqn:Hn; [|done].
  intros _. by eapply Atoi_signedDigits.
Qed.

Lemma station_argument_is_signed_digits_witness :
  accepted (fetchObservations brokenStore "+7" "2023-01-01,2023-01-31" "tn")
  ∧ signedDigits "+7" = true.
Proof.
  assert (Hacc : accepted (fetchObservations brokenStore "+7"
                             "2023-01-01,2023-01-31" "tn")).
  { unfold accepted. simpl. discriminate. }
  split; [exact Hacc|].
  exact (station_argument_is_signed_digits brokenStore "+7"
           "2023-01-01,2023-01-31" "tn" Hacc).
Defined.

(** ** The select list of a [type] without double quotes *)

Lemma Split_pieces_clean s sep c :
  GoStrings.ContainsByte s c = false →
  Forall (λ piece, GoStrings.ContainsByte piece c = false) (GoStrings.Split s sep).
Proof.
  induction s as [|d rest IH]; simpl.
  - intros _. by repeat constructor.
  - intros [Hd Hrest]%orb_false_iff. specialize (IH Hrest).
    destruct (Ascii.eqb d sep).
    + by constructor.
    + destruct (GoStrings.Split rest sep) as [|piece pieces].
      * repeat constructor. simpl. by rewrite Hd.
      * apply Forall_cons in IH as [Hp Hps]. constructor; [|done].
        simpl. by rewrite Hd, Hp.
Qed.

Lemma length_append_string (s t : string) :
  String.length (s +:+ t) = (String.length s + String.length t)%nat.
Proof.
  induction s as [|c s IH]; [done|].
  rewrite append_cons. simpl. by rewrite IH.
Qed.

Lemma length_wrapQuotes t : String.length (wrapQuotes t) = S (S (String.length t)).
Proof.
  unfold wrapQuotes. simpl. rewrite length_append_string. simpl. lia.
Qed.

Lemma length_Join_wrapped tokens :
  (length tokens ≤ String.length (GoStrings.Join (wrapQuotes <$> tokens) ","))%nat.
Proof.
  induction tokens as [|t [|t' ts] IH]; [simpl; lia| |].
  - change (GoStrings.Join (wrapQuotes <$> [t]) ",") with (wrapQuotes t).
    rewrite length_wrapQuotes. simpl. lia.
  - change (GoStrings.Join (wrapQuotes <$> t :: t' :: ts) ",")
      with (wrapQuotes t +:+ "," +:+ GoStrings.Join (wrapQuotes <$> t' :: ts) ",").
    rewrite !length_append_string, length_wrapQuotes.
    change (length (t :: t' :: ts)) with (S (length (t' :: ts))). lia.
Qed.

Lemma selectTail_split :
  selectTail = String comma (wrapQuotes "Tanggal" +:+ fromClause).
Proof. reflexivity. Qed.

Lemma scan_wrapped_before_comma t rest :
  GoStrings.ContainsByte t dquote = false →
  Ident.scan (wrapQuotes t +:+ String comma rest) = Some (t, String comma rest).
Proof.
  intros Ht. apply wrapQuotes_clean; [done|]. unfold comma, dquote. discriminate.
Qed.

Lemma scan_date_column :
  Ident.scan (wrapQuotes "Tanggal" +:+ fromClause) = Some ("Tanggal"%string, fromClause).
Proof. reflexivity. Qed.

Lemma scanListFuel_tokens tokens : ∀ fuel,
  tokens ≠ [] →
  Forall (λ t, GoStrings.ContainsByte t dquote = false) tokens →
  (length tokens < fuel)%nat →
  scanListFuel fuel (GoStrings.Join (wrapQuotes <$> tokens) "," +:+ selectTail)
  = Some (tokens ++ ["Tanggal"%string], fromClause).
Proof.
  induction tokens as [|t [|t' ts] IH]; intros fuel Hne Hclean Hfuel; [done| |].
  - apply Forall_cons in Hclean as [Ht _]. simpl in Hfuel.
    destruct fuel as [|[|fuel]]; [lia|lia|].
    change (GoStrings.Join (wrapQuotes <$> [t]) ",") with (wrapQuotes t).
    rewrite selectTail_split.
    cbn [scanListFuel].
    rewrite scan_wrapped_before_comma by done.
    rewrite Ascii.eqb_refl, scan_date_column. reflexivity.
  - apply Forall_cons in Hclean as [Ht Hrest].
    destruct fuel as [|fuel]; [simpl in Hfuel; lia|].
    change (GoStrings.Join (wrapQuotes <$> t :: t' :: ts) ",")
      with (wrapQuotes t +:+ "," +:+ GoStrings.Join (wrapQuotes <$> t' :: ts) ",").
    rewrite !append_assoc_string.
    change ("," +:+ GoStrings.Join (wrapQuotes <$> t' :: ts) "," +:+ selectTail)
      with (String comma (GoStrings.Join (wrapQuotes <$> t' :: ts) "," +:+ selectTail)).
    cbn [scanListFuel].
    rewrite scan_wrapped_before_comma by done.
    rewrite Ascii.eqb_refl.
    rewrite IH; [done|done|done|]. simpl in *. lia.
Qed.

(** X9: when the [type] parameter has no double quote in it, the select
    list of the statement, read as SQL, is exactly the comma-separated
    tokens of the parameter, each one quoted identifier (whatever else it
    contains), then the date column, and the FROM clause of the handler
    follows untouched. *)
Theorem clean_type_keeps_statement_shape (fieldList : string) :
  GoStrings.ContainsByte fieldList dquote = false →
  scanList (dataTypeOf fieldList +:+ selectTail)
  = Some (GoStrings.Split fieldList comma ++ ["Tanggal"%string], fromClause).
Proof.
  intros Hclean. unfold scanList, dataTypeOf.
  destruct (Split_nonempty fieldList comma) as (p & ps & Hs).
  apply scanListFuel_tokens.
  - by rewrite Hs.
  - by apply Split_pieces_clean.
  - rewrite length_append_string.
    pose proof (length_Join_wrapped (GoStrings.Split fieldList comma)).
    assert (2 ≤ String.length selectTail)%nat by (vm_compute; lia).
    lia.
Qed.

Lemma clean_type_keeps_statement_shape_witness :
  GoStrings.ContainsByte "tn;DROP TABLE Weather,tx" dquote = false
  ∧ scanList (dataTypeOf "tn;DROP TABLE Weather,tx" +:+ selectTail)
    = Some (["tn;DROP TABLE Weather"; "tx"; "Tanggal"]%string, fromClause).
Proof.
  split; [reflexivity|].
  apply (clean_type_keeps_statement_shape "tn;DROP TABLE Weather,tx").
  reflexivity.
Defined.

(** ** Missing parameters *)

Lemma Get_missing (values : gmap string (list string)) key :
  values !! key = None → Get values key = EmptyString.
Proof. intros H. unfold Get. by rewrite H. Qed.

(** X10: a request that is not a preflight and lacks a parameter: without
    [type], or with it but without [stationNumber], it is answered 400
    and nothing is sent; with both in order but without [dateRange], the
    empty text is handed to [time.Parse] and the process ends. *)
Theorem missing_parameters (db : Sql.DB) (r : Request) :
  Method r ≠ MethodOptions →
  (URLQuery r !! "type"%string = None →
   inputDataHandler db r = mkRun [] missingDataTypes)
  ∧ (Get (URLQuery r) "type" ≠ EmptyString →
     URLQuery r !! "stationNumber"%string = None →
     inputDataHandler db r = mkRun [] missingDataTypes)
  ∧ (Get (URLQuery r) "type" ≠ EmptyString →
     is_Some (Strconv.Atoi (Get (URLQuery r) "stationNumber")) →
     URLQuery r !! "dateRange"%string = None →
     inputDataHandler db r = mkRun [] LogFatal).
Proof.
  intros Hm. unfold inputDataHandler.
  destruct (String.eqb_spec (Method r) MethodOptions) as [|_]; [done|].
  repeat split.
  - intros Ht. by rewrite (Get_missing _ _ Ht).
  - intros Ht Hs. rewrite (Get_missing _ _ Hs). unfold fetchObservations.
    by destruct (String.eqb _ _).
  - intros Ht [n Hn] Hd. rewrite (Get_missing _ _ Hd).
    unfold fetchObservations. fold (dataTypeOf (Get (URLQuery r) "type")).
    rewrite dataTypeOf_eqb_false by done. by rewrite Hn.
Qed.

Lemma missing_parameters_witness :
  let r := mkRequest "GET" "/input/data"
             {[ "stationNumber"%string := ["97230"%string];
                "type"%string := ["tn"%string] ]} in
  Method r ≠ MethodOptions
  ∧ inputDataHandler brokenStore r = mkRun [] LogFatal.
Proof.
  intros r.
  assert (Hm : Method r ≠ MethodOptions) by (simpl; discriminate).
  split; [exact Hm|].
  destruct (missing_parameters brokenStore r Hm) as (_ & _ & H).
  apply H.
  - vm_compute. discriminate.
  - vm_compute. by eexists.
  - reflexivity.
Defined.

(** ** The body of a successful [/input/data] response *)

Lemma collectRows_shape columns records : ∀ results results',
  collectRows columns records results = inr results' →
  match records with
  | [] => results' = results
  | _ :: _ => ∃ maps, results' = MkSlice maps
  end.
Proof.
  induction records as [|record rest IH]; intros results results'; simpl.
  - by intros [= <-].
  - destruct (Sql.ScanAny _ _); [|done].
    destruct (fillMap _ _ _ _) as [m|]; [|done].
    intros Hc. specialize (IH _ _ Hc). destruct rest; [|done].
    rewrite IH. by eexists.
Qed.

(** X11: when [/input/data] writes a body, it is [null] if the store
    returned no record, and otherwise an array with one object per
    record, in the order of the records: the document of the map filled
    from that record.  An iteration error of the store plays no part:
    the rows read before it are written as a complete answer. *)
Theorem written_body_one_object_per_record (rows : Sql.Rows) (body : Json.Value) :
  writeResults (Sql.QueryRows rows) = Written body →
  match Sql.Records rows with
  | [] => body = Json.Null
  | _ :: _ =>
      ∃ docs,
        body = Json.Array docs
        ∧ Forall2 (λ record doc,
                     ∃ resultMap,
                       fillMap (Sql.Columns rows) 0 record ∅ = Some resultMap
                       ∧ marshalMap resultMap = Some doc)
            (Sql.Records rows) docs
  end.
Proof.
  unfold writeResults.
  destruct (collectRows _ _ _) as [stop|results] eqn:Hc.
  { apply collectRows_stop in Hc as [-> | ->]; done. }
  pose proof (collectRows_shape _ _ _ _ Hc) as Hshape.
  apply collectRows_sound in Hc as (maps & Hel & Hall). simpl in Hel.
  destruct (Sql.Records rows) as [|record rest].
  - subst results. simpl. by intros [= <-].
  - destruct Hshape as [maps' ->]. simpl in Hel. subst maps'. simpl.
    destruct (mapM marshalMap maps) as [docs|] eqn:Hm; [|done].
    simpl. intros [= <-]. exists docs. split; [done|].
    apply mapM_Some_1 in Hm.
    clear -Hall Hm. revert docs Hm.
    induction Hall as [|rec m recs ms [_ Hfill] _ IH]; intros docs Hm.
    + apply Forall2_nil_inv_l in Hm as ->. constructor.
    + apply Forall2_cons_inv_l in Hm as (doc & docs' & Hdoc & Hrest & ->).
      constructor; [by exists m|by apply IH].
Qed.

Lemma written_body_one_object_per_record_witness :
  let rows := Sql.mkRows ["tn"; "Tanggal"]%string
                [[Sql.Nil; Sql.Text "2023-01-15"];
                 [Sql.Int64 3; Sql.Text "2023-01-16"]] true in
  ∃ body, writeResults (Sql.QueryRows rows) = Written body
          ∧ ∃ docs, body = Json.Array docs ∧ length docs = 2%nat.
Proof.
  intros rows. eexists. split; [by vm_compute|].
  destruct (written_body_one_object_per_record rows _ ltac:(by vm_compute))
    as (docs & Hb & Hall).
  exists docs. split; [exact Hb|]. by apply Forall2_length in Hall.
Defined.

(** ** The [/stations] response *)

Lemma collectStations_mapM (scanStation : list Sql.Value → option Station)
    records : ∀ acc,
  collectStations scanStation records (MkSlice acc)
  = (λ stations, MkSlice (acc ++ stations)) <$> mapM scanStation records.
Proof.
  induction records as [|record rest IH]; intros acc; simpl.
  - by rewrite app_nil_r.
  - destruct (scanStation record) as [station|]; simpl; [|done].
    unfold append. simpl. rewrite IH.
    destruct (mapM scanStation rest) as [stations|]; simpl; [|done].
    by rewrite <- app_assoc.
Qed.

(** X12: [/stations] writes a body exactly when the statement succeeds, every
    record scans into a station, the iteration ends without error and
    every station has a document; the body is then the array of these
    documents in the order of the records.  In every other case the
    handler ends in [log.Fatal]: it has no error response. *)
Theorem stations_body_or_fatal
    (scanStation : list Sql.Value → option Station) (db : Sql.DB) :
  (∀ body,
     Result (stationsHandler scanStation db) = Written body
     ↔ ∃ rows stations docs,
         db stationsQuery [] = Sql.QueryRows rows
         ∧ mapM scanStation (Sql.Records rows) = Some stations
         ∧ Sql.IterErr rows = false
         ∧ mapM MarshalJSON stations = Some docs
         ∧ body = Json.Array docs)
  ∧ ((∃ body, Result (stationsHandler scanStation db) = Written body)
     ∨ Result (stationsHandler scanStation db) = LogFatal).
Proof.
  unfold stationsHandler. simpl.
  destruct (db stationsQuery []) as [|rows] eqn:Hdb.
  { split; [|by right]. intros body. split; [done|].
    by intros (? & ? & ? & ? & _). }
  rewrite collectStations_mapM.
  destruct (mapM scanStation (Sql.Records rows)) as [stations|] eqn:Hscan; simpl.
  2:{ split; [|by right]. intros body. split; [done|].
      intros (rows' & ? & ? & [= <-] & Hs & _). congruence. }
  destruct (Sql.IterErr rows) eqn:Herr.
  { split; [|by right]. intros body. split; [done|].
    intros (rows' & ? & ? & [= <-] & _ & He & _). congruence. }
  destruct (mapM MarshalJSON stations) as [docs|] eqn:Hdocs; simpl.
  - split; [|left; by eexists]. intros body. split.
    + intros [= <-]. by exists rows, stations, docs.
    + intros (rows' & stations' & docs' & [= <-] & Hs & _ & Hd & ->).
      rewrite Hscan in Hs. injection Hs as <-. rewrite Hdocs in Hd.
      by injection Hd as <-.
  - split; [|by right]. intros body. split; [done|].
    intros (rows' & stations' & docs' & [= <-] & Hs & _ & Hd & _).
    rewrite Hscan in Hs. injection Hs as <-. congruence.
Qed.

(** ** The document of a station *)

(** X13: the document of a station has five members, in the order of the
    struct, and the elevation of the embedded alias is not among them;
    when the elevation is not valid its stored float is not written
    anywhere. *)
Theorem station_document (s : Station) :
  encodable s = true →
  MarshalJSON s
  = Some (Json.Object
            [("station_number"%string, Json.Int (StationNumber s));
             ("station_name"%string, Json.Str (StationName s));
             ("latitude"%string, Json.Float (Latitude s));
             ("longitude"%string, Json.Float (Longitude s));
             ("elevation"%string,
              if Sql.Valid (Elevation s)
              then Json.Float (Sql.Float64Of (Elevation s))
              else Json.Null)]).
Proof.
  unfold encodable. intros H.
  apply andb_true_iff in H as [H Hel]. apply andb_true_iff in H as [Hlat Hlon].
  unfold MarshalJSON, aliasMembers.
  rewrite (ofFloat_finite _ Hlat), (ofFloat_finite _ Hlon).
  destruct (Sql.Valid (Elevation s)); simpl in *; [|done].
  by rewrite (ofFloat_finite _ Hel).
Qed.

Lemma station_document_witness :
  let s := mkStation 97230 "Komodo" (-8.5)%float 119.5%float
             (Sql.mkNullFloat64 nan false) in
  encodable s = true
  ∧ MarshalJSON s
    = Some (Json.Object
              [("station_number"%string, Json.Int 97230);
               ("station_name"%string, Json.Str "Komodo");
               ("latitude"%string, Json.Float (-8.5)%float);
               ("longitude"%string, Json.Float 119.5%float);
               ("elevation"%string, Json.Null)]).
Proof.
  intros s. split; [reflexivity|].
  apply (station_document s). reflexivity.
Defined.

(** ** Repeated column names *)

Lemma fillMap_untouched columns values c : ∀ i (m m' : gmap string Sql.Value),
  (∀ j, (i ≤ j < i + length values)%nat → columns !! j ≠ Some c) →
  fillMap columns i values m = Some m' →
  m' !! c = m !! c.
Proof.
  induction values as [|val rest IH]; intros i m m' Hnot; simpl.
  - by intros [= <-].
  - destruct (columns !! i) as [ci|] eqn:Hci; [|done].
    intros Hfill.
    assert (∀ j, (S i ≤ j < S i + length rest)%nat → columns !! j ≠ Some c)
      as Hnot' by (intros j Hj; apply Hnot; simpl; lia).
    rewrite (IH _ _ _ Hnot' Hfill).
    apply lookup_insert_ne. intros ->. apply (Hnot i); [simpl; lia|done].
Qed.

Lemma fillMap_last columns values c : ∀ i k (m m' : gmap string Sql.Value),
  fillMap columns k values m = Some m' →
  (k ≤ i < k + length values)%nat →
  columns !! i = Some c →
  (∀ j, (i < j < k + length values)%nat → columns !! j ≠ Some c) →
  m' !! c = values !! (i - k)%nat.
Proof.
  induction values as [|val rest IH]; intros i k m m'; simpl; [lia|].
  destruct (columns !! k) as [ck|] eqn:Hck; [|done].
  intros Hfill Hrange Hi Hlast.
  destruct (decide (i = k)) as [->|Hne].
  - assert (ck = c) as -> by congruence.
    assert (∀ j, (S k ≤ j < S k + length rest)%nat → columns !! j ≠ Some c)
      as Hnot by (intros j Hj; apply Hlast; simpl; lia).
    rewrite (fillMap_untouched _ _ c _ _ _ Hnot Hfill).
    rewrite lookup_insert_eq. by rewrite Nat.sub_diag.
  - assert (∀ j, (i < j < S k + length rest)%nat → columns !! j ≠ Some c)
      as Hlast' by (intros j Hj; apply Hlast; simpl; lia).
    rewrite (IH i (S k) _ _ Hfill ltac:(simpl in Hrange; lia) Hi Hlast').
    replace (i - k)%nat with (S (i - S k)) by lia. done.
Qed.

(** X14: when a column name occurs more than once in the result, the row
    keeps one key for it, holding the value of the last column of that
    name: the loop assigns in column order and each assignment replaces
    the one before. *)
Theorem repeated_column_keeps_last (columns : list string)
    (record : list Sql.Value) (resultMap : gmap string Sql.Value)
    (i : nat) (c : string) :
  fillMap columns 0 record ∅ = Some resultMap →
  length record = length columns →
  columns !! i = Some c →
  (∀ j, (i < j)%nat → columns !! j ≠ Some c) →
  resultMap !! c = record !! i.
Proof.
  intros Hfill Hlen Hi Hlast.
  rewrite (fillMap_last columns record c i 0 ∅ resultMap Hfill).
  - by rewrite Nat.sub_0_r.
  - apply lookup_lt_Some in Hi. lia.
  - done.
  - intros j Hj. apply Hlast. lia.
Qed.

Lemma repeated_column_keeps_last_witness :
  ∃ resultMap,
    fillMap ["tn"; "tn"; "Tanggal"]%string 0
      [Sql.Int64 1; Sql.Int64 2; Sql.Text "2023-01-15"] ∅ = Some resultMap
    ∧ resultMap !! "tn"%string = Some (Sql.Int64 2)
    ∧ size resultMap = 2%nat.
Proof.
  eexists. split; [reflexivity|]. split.
  - apply (repeated_column_keeps_last ["tn"; "tn"; "Tanggal"]%string
             [Sql.Int64 1; Sql.Int64 2; Sql.Text "2023-01-15"] _ 1 "tn").
    + reflexivity.
    + reflexivity.
    + reflexivity.
    + intros j Hj. destruct j as [|[|[|j]]]; [lia|lia|discriminate|discriminate].
  - by vm_compute.
Defined.

(** ** Values that have no JSON form *)

Lemma marshalMap_fails (m : gmap string Sql.Value) c v :
  m !! c = Some v → marshalAny v = None → marshalMap m = None.
Proof.
  intros Hc Hv. unfold marshalMap.
  rewrite (mapM_None_2 marshalEntry (sortedEntries m)); [done|].
  apply Exists_exists. exists (c, v). split.
  - by apply sortedEntries_lookup.
  - unfold marshalEntry. simpl. by rewrite Hv.
Qed.

(** X15: one NaN or infinite reading in any record of the result, under a
    column whose name is not repeated after it, leaves the handler
    without a body: [json.Marshal] fails on the whole slice and the
    process ends. *)
Theorem non_finite_reading_is_fatal (rows : Sql.Rows)
    (k i : nat) (record : list Sql.Value) (c : string) (f : float) :
  Forall (λ record, length record = length (Sql.Columns rows)) (Sql.Records rows) →
  Sql.Records rows !! k = Some record →
  Sql.Columns rows !! i = Some c →
  (∀ j, (i < j)%nat → Sql.Columns rows !! j ≠ Some c) →
  record !! i = Some (Sql.Float64 f) →
  finite f = false →
  writeResults (Sql.QueryRows rows) = LogFatal.
Proof.
  intros Hlen Hk Hi Hlast Hv Hf. unfold writeResults.
  destruct (collectRows_total _ _ NilSlice Hlen) as [results Hc]. rewrite Hc.
  pose proof (collectRows_shape _ _ _ _ Hc) as Hshape.
  apply collectRows_sound in Hc as (maps & Hel & Hall). simpl in Hel.
  destruct (Sql.Records rows) as [|r0 rest] eqn:Hrec; [done|].
  destruct Hshape as [maps' ->]. simpl in Hel. subst maps'. simpl.
  destruct (Forall2_lookup_l _ _ _ _ _ Hall Hk) as (m & Hm & Hl & Hfill).
  assert (marshalMap m = None) as Hnone.
  { apply (marshalMap_fails m c (Sql.Float64 f)).
    - rewrite <- Hv.
      rewrite (fillMap_last (Sql.Columns rows) record c i 0 ∅ m Hfill).
      + by rewrite Nat.sub_0_r.
      + apply lookup_lt_Some in Hi. lia.
      + done.
      + intros j Hj. apply Hlast. lia.
    - simpl. by apply ofFloat_not_finite. }
  rewrite (mapM_None_2 marshalMap maps); [done|].
  apply Exists_exists. exists m. split; [|done].
  by eapply list_elem_of_lookup_2.
Qed.

Lemma non_finite_reading_is_fatal_witness :
  let rows := Sql.mkRows ["tn"; "Tanggal"]%string
                [[Sql.Float64 24.5%float; Sql.Text "2023-01-15"];
                 [Sql.Float64 infinity; Sql.Text "2023-01-16"]] false in
  finite infinity = false
  ∧ writeResults (Sql.QueryRows rows) = LogFatal.
Proof.
  intros rows. split; [reflexivity|].
  apply (non_finite_reading_is_fatal rows 1 0
           [Sql.Float64 infinity; Sql.Text "2023-01-16"] "tn" infinity).
  - repeat (apply Forall_cons; split; [reflexivity|]). apply Forall_nil. done.
  - reflexivity.
  - reflexivity.
  - intros j Hj. destruct j as [|[|j]]; [lia|discriminate|discriminate].
  - reflexivity.
  - reflexivity.
Defined.

(** ** The start of the process *)

Lemma scanTableNames_Forall records :
  scanTableNames records = true
  ↔ Forall (λ record, ∃ v, record = [v] ∧ v ≠ Sql.Nil) records.
Proof.
  induction records as [|record rest IH]; simpl.
  - split; [by constructor|done].
  - rewrite andb_true_iff, Forall_cons, IH.
    assert (scanTableName record = true ↔ ∃ v, record = [v] ∧ v ≠ Sql.Nil) as ->;
      [|done].
    unfold scanTableName. split.
    + destruct record as [|v [|w more]]; [done| |by destruct v].
      destruct v; [done|by eexists..].
    + intros (v & -> & Hv). by destruct v.
Qed.

(** X16: [main] reaches [ListenAndServe] exactly when the handle opens, the
    listing of the public tables succeeds, every record of it is one
    column that is not NULL, and the iteration ends without error; in
    every other case no request is ever served. *)
Theorem serving_starts_iff
    (scanStation : list Sql.Value → option Station)
    (openFails : bool) (db0 : Sql.DB) (reqs : list (Sql.DB * Request)) :
  (startup openFails db0 = Running
   ↔ openFails = false
     ∧ ∃ rows,
         db0 tablesQuery [] = Sql.QueryRows rows
         ∧ Forall (λ record, ∃ v, record = [v] ∧ v ≠ Sql.Nil) (Sql.Records rows)
         ∧ Sql.IterErr rows = false)
  ∧ (startup openFails db0 = Running
     ∨ main scanStation openFails db0 reqs = (λ _, None) <$> reqs).
Proof.
  unfold main, startup. destruct openFails.
  { split; [|right; apply serveAll_exited]. split; [done|]. by intros [? _]. }
  destruct (db0 tablesQuery []) as [|rows].
  { split; [|right; apply serveAll_exited]. split; [done|].
    by intros (_ & ? & ? & _). }
  destruct (scanTableNames (Sql.Records rows)) eqn:Hscan.
  - apply scanTableNames_Forall in Hscan.
    destruct (Sql.IterErr rows) eqn:Herr.
    + split; [|right; apply serveAll_exited]. split; [done|].
      intros (_ & rows' & [= <-] & _ & ?). congruence.
    + split; [|by left]. split; [|done]. intros _. split; [done|].
      by exists rows.
  - split; [|right; apply serveAll_exited]. split; [done|].
    intros (_ & rows' & [= <-] & Hall & _).
    apply scanTableNames_Forall in Hall. congruence.
Qed.

(** ** Splitting loses nothing *)

(** X17: the tokens the handler gets from a parameter, joined again with
    the separator, are the parameter: no byte is dropped or added, and
    no token contains the separator. *)
Theorem Join_Split (s : string) (sep : ascii) :
  GoStrings.Join (GoStrings.Split s sep) (String sep EmptyString) = s
  ∧ Forall (λ piece, GoStrings.ContainsByte piece sep = false)
      (GoStrings.Split s sep).
Proof.
  induction s as [|c rest [IHj IHc]]; simpl.
  - split; [done|]. by repeat constructor.
  - destruct (Ascii.eqb c sep) eqn:Hc.
    + apply Ascii.eqb_eq in Hc as ->.
      destruct (Split_nonempty rest sep) as (p & ps & Hs).
      rewrite Hs in *. split; [|by constructor].
      change (GoStrings.Join (EmptyString :: p :: ps) (String sep EmptyString))
        with (String sep (GoStrings.Join (p :: ps) (String sep EmptyString))).
      by rewrite IHj.
    + destruct (GoStrings.Split rest sep) as [|p ps] eqn:Hs.
      * destruct (Split_nonempty rest sep) as (? & ? & ?). congruence.
      * apply Forall_cons in IHc as [Hp Hps]. split.
        -- destruct ps as [|p' ps'].
           ++ simpl in *. by rewrite IHj.
           ++ change (GoStrings.Join (String c p :: p' :: ps') (String sep EmptyString))
                with (String c (GoStrings.Join (p :: p' :: ps') (String sep EmptyString))).
              by rewrite IHj.
        -- constructor; [|done]. simpl. by rewrite Hc, Hp.
Qed.

(** ** Result Rows and their documents *)






